(** * rpa-dates: the working-day arithmetic of [DateService]

    A shallow embedding of [src/service.py] ([normalize],
    [_get_holiday_set], [add_working_days], and the week, month and
    year functions [first_day_of_week], [last_day_of_week],
    [date_of_weekday], [fist_day_of_month], [last_day_of_month],
    [day_of_year], [week_of_year]) together with the part of Python's
    [datetime] and [calendar] modules these functions rely on, and the
    properties of the working-day engine and of the calendar functions
    stated over it. *)

From Stdlib Require Import ZArith Lia String Ascii List.
From Equations Require Import Equations.
From stdpp Require Import base decidable countable gmap sets list strings.

Local Open Scope Z_scope.

(** ** Python's [datetime] module, as far as the service uses it *)

Module Calendar.

Definition MINYEAR : Z := 1.
Definition MAXYEAR : Z := 9999.

(** [date.max.toordinal()], the ordinal of 9999-12-31. *)
Definition _MAXORDINAL : Z := 3652059.

Definition _DAYS_IN_MONTH : list Z :=
  [-1; 31; 28; 31; 30; 31; 30; 31; 31; 30; 31; 30; 31].

Definition _DAYS_BEFORE_MONTH : list Z :=
  [-1; 0; 31; 59; 90; 120; 151; 181; 212; 243; 273; 304; 334].

Definition table (t : list Z) (i : Z) : Z := nth (Z.to_nat i) t (-1).

Definition _is_leap (year : Z) : bool :=
  (year mod 4 =? 0) && (negb (year mod 100 =? 0) || (year mod 400 =? 0)).

Definition _days_before_year (year : Z) : Z :=
  let y := year - 1 in y * 365 + y / 4 - y / 100 + y / 400.

Definition _days_before_month (year month : Z) : Z :=
  table _DAYS_BEFORE_MONTH month
  + (if (month >? 2) && _is_leap year then 1 else 0).

Definition _ymd2ord (year month day : Z) : Z :=
  _days_before_year year + _days_before_month year month + day.

Definition _DI400Y : Z := _days_before_year 401.
Definition _DI100Y : Z := _days_before_year 101.
Definition _DI4Y : Z := _days_before_year 5.

(** The inverse of [_ymd2ord]: ordinal to (year, month, day). *)
Definition _ord2ymd (n : Z) : Z * Z * Z :=
  let n := n - 1 in
  let n400 := n / _DI400Y in
  let n := n mod _DI400Y in
  let year := n400 * 400 + 1 in
  let n100 := n / _DI100Y in
  let n := n mod _DI100Y in
  let n4 := n / _DI4Y in
  let n := n mod _DI4Y in
  let n1 := n / 365 in
  let n := n mod 365 in
  let year := year + (n100 * 100 + n4 * 4 + n1) in
  if (n1 =? 4) || (n100 =? 4) then (year - 1, 12, 31)
  else
    let leapyear := (n1 =? 3) && (negb (n4 =? 24) || (n100 =? 3)) in
    let month := Z.shiftr (n + 50) 5 in
    let preceding :=
      table _DAYS_BEFORE_MONTH month
      + (if (month >? 2) && leapyear then 1 else 0) in
    if preceding >? n then
      let month := month - 1 in
      let preceding :=
        preceding - (table _DAYS_IN_MONTH month
                     + (if (month =? 2) && leapyear then 1 else 0)) in
      (year, month, n - preceding + 1)
    else (year, month, n - preceding + 1).

(** A [date] is a day of the proleptic Gregorian calendar, identified
    by the number [date.toordinal()] returns (0001-01-01 is day 1);
    its fields are read back through [_ord2ymd]. *)
Record date : Type := fromordinal { toordinal : Z }.

Definition mkdate (year month day : Z) : date :=
  fromordinal (_ymd2ord year month day).

Definition date_year (d : date) : Z := fst (fst (_ord2ymd (toordinal d))).
Definition date_month (d : date) : Z := snd (fst (_ord2ymd (toordinal d))).
Definition date_day (d : date) : Z := snd (_ord2ymd (toordinal d)).

(** The ordinals [date] can hold: 0001-01-01 .. 9999-12-31. *)
Definition valid_date (d : date) : Prop :=
  1 <= toordinal d <= _MAXORDINAL.

Record time : Type := mktime {
  hour : Z;
  minute : Z;
  second : Z;
  microsecond : Z
}.

(** [datetime.min.time()] *)
Definition midnight : time := mktime 0 0 0 0.

Record datetime : Type := combine { date_of : date; time_of : time }.

Definition year (dt : datetime) : Z := date_year (date_of dt).

(** [weekday()]: Monday is 0, Sunday is 6. *)
Definition date_weekday (d : date) : Z := (toordinal d + 6) mod 7.
Definition weekday (dt : datetime) : Z := date_weekday (date_of dt).

(** Naive datetimes compare field by field, that is by day first and
    by time of day within the same day. *)
Definition time_key (t : time) : Z :=
  ((hour t * 60 + minute t) * 60 + second t) * 1000000 + microsecond t.

Definition dt_ltb (a b : datetime) : bool :=
  (toordinal (date_of a) <? toordinal (date_of b))
  || ((toordinal (date_of a) =? toordinal (date_of b))
      && (time_key (time_of a) <? time_key (time_of b))).

(** [_days_in_month(year, month)] *)
Definition _days_in_month (year month : Z) : Z :=
  if (month =? 2) && _is_leap year then 29 else table _DAYS_IN_MONTH month.

(** [date.month] and [date.day] of a datetime. *)
Definition month (dt : datetime) : Z := date_month (date_of dt).
Definition day (dt : datetime) : Z := date_day (date_of dt).

(** [timetuple().tm_yday] *)
Definition tm_yday (dt : datetime) : Z :=
  _days_before_month (year dt) (month dt) + day dt.

(** The [calendar] module: [mdays], [isleap], [weekday]. *)
Definition mdays : list Z :=
  [0; 31; 28; 31; 30; 31; 30; 31; 31; 30; 31; 30; 31].

Definition isleap (year : Z) : bool :=
  (year mod 4 =? 0) && (negb (year mod 100 =? 0) || (year mod 400 =? 0)).

Definition calendar_weekday (year month day : Z) : Z :=
  let year :=
    if negb ((MINYEAR <=? year) && (year <=? MAXYEAR))
    then 2000 + year mod 400 else year in
  date_weekday (mkdate year month day).

(** The day after (year, month, day) on the calendar. *)
Definition next_ymd (ymd : Z * Z * Z) : Z * Z * Z :=
  let '(y, m, d) := ymd in
  if d <? _days_in_month y m then (y, m, d + 1)
  else if m <? 12 then (y, m + 1, 1)
  else (y + 1, 1, 1).

Definition ymd_eqb (a b : Z * Z * Z) : bool :=
  let '(y1, m1, d1) := a in
  let '(y2, m2, d2) := b in
  (y1 =? y2) && (m1 =? m2) && (d1 =? d2).

(** What [_ord2ymd] owes to the ordinal [n] whose fields are [ymd] and
    whose successor has the fields [next]: a month and a day in range,
    [_ymd2ord] leading back to [n], and [next] the day after. *)
Definition day_ok (n : Z) (ymd next : Z * Z * Z) : bool :=
  let '(y, m, d) := ymd in
  (1 <=? m) && (m <=? 12) && (1 <=? d) && (d <=? _days_in_month y m)
  && (_ymd2ord y m d =? n)
  && ymd_eqb next (next_ymd ymd).

(** [day_ok] for the [fuel] ordinals from [n] on, each [_ord2ymd]
    computed once. *)
Fixpoint days_ok (n : Z) (ymd : Z * Z * Z) (fuel : nat) : bool :=
  match fuel with
  | O => true
  | S fuel =>
      let next := _ord2ymd (n + 1) in
      day_ok n ymd next && days_ok (n + 1) next fuel
  end.

Definition ord_ok (n : Z) : bool := day_ok n (_ord2ymd n) (_ord2ymd (n + 1)).

(** The same day 400 * k years later. *)
Definition shift_year (k : Z) (ymd : Z * Z * Z) : Z * Z * Z :=
  let '(y, m, d) := ymd in (y + 400 * k, m, d).

(** [_isoweek1monday(year)]: the ordinal of the Monday that starts ISO
    week 1 of [year]. *)
Definition _isoweek1monday (year : Z) : Z :=
  let THURSDAY := 3 in
  let firstday := _ymd2ord year 1 1 in
  let firstweekday := (firstday + 6) mod 7 in
  let week1monday := firstday - firstweekday in
  if firstweekday >? THURSDAY then week1monday + 7 else week1monday.

(** [isocalendar()]: ISO year, week and weekday. *)
Definition isocalendar (dt : datetime) : Z * Z * Z :=
  let year0 := year dt in
  let week1monday := _isoweek1monday year0 in
  let today := _ymd2ord (year dt) (month dt) (day dt) in
  let week := (today - week1monday) / 7 in
  let wday := (today - week1monday) mod 7 in
  if week <? 0 then
    let year1 := year0 - 1 in
    let week1monday := _isoweek1monday year1 in
    let week := (today - week1monday) / 7 in
    let wday := (today - week1monday) mod 7 in
    (year1, week + 1, wday + 1)
  else if (week >=? 52) && (today >=? _isoweek1monday (year0 + 1))
  then (year0 + 1, 0 + 1, wday + 1)
  else (year0, week + 1, wday + 1).

(** [isocalendar().week] *)
Definition iso_week (dt : datetime) : Z := snd (fst (isocalendar dt)).

#[global] Instance date_eq_dec : EqDecision date.
Proof. solve_decision. Defined.

#[global] Instance date_countable : Countable date.
Proof.
  refine (inj_countable' toordinal fromordinal _).
  intros [o]. reflexivity.
Defined.

End Calendar.

Import Calendar.

(** ** Exceptions and computations of the service *)

Inductive exn : Type :=
| DateOperationError (msg : string)
| TypeError (msg : string)
| OverflowError (msg : string)
| OtherError (cls : string) (msg : string).

Inductive result (A : Type) : Type :=
| Ok (a : A)
| Raise (e : exn).
Arguments Ok {A} a.
Arguments Raise {A} e.

(** [dt + timedelta(days=k)]: the day moves by [k], the time of day
    stays, and a day outside [date]'s range is an [OverflowError]. *)
Definition add_days (dt : datetime) (k : Z) : result datetime :=
  let o := toordinal (date_of dt) + k in
  if (0 <? o) && (o <=? _MAXORDINAL)
  then Ok (combine (fromordinal o) (time_of dt))
  else Raise (OverflowError "date value out of range").

(** [calendar.monthrange(year, month)]: the weekday of the first of the
    month and the number of its days. *)
Definition monthrange (year month : Z) : result (Z * Z) :=
  if negb ((1 <=? month) && (month <=? 12))
  then Raise (OtherError "IllegalMonthError" "bad month number")
  else
    let day1 := calendar_weekday year month 1 in
    let ndays :=
      table mdays month + (if (month =? 2) && isleap year then 1 else 0) in
    Ok (day1, ndays).

(** [dt.replace(month=..., day=...)]: a new datetime from the fields of
    [dt], the named ones changed; the constructor refuses fields out of
    range with [ValueError]. *)
Definition replace (dt : datetime) (new_month new_day : option Z)
  : result datetime :=
  let y := year dt in
  let m := default (month dt) new_month in
  let d := default (day dt) new_day in
  if negb ((MINYEAR <=? y) && (y <=? MAXYEAR))
  then Raise (OtherError "ValueError" "year is out of range")
  else if negb ((1 <=? m) && (m <=? 12))
  then Raise (OtherError "ValueError" "month must be in 1..12")
  else if negb ((1 <=? d) && (d <=? _days_in_month y m))
  then Raise (OtherError "ValueError" "day is out of range for month")
  else Ok (combine (mkdate y m d) (time_of dt)).

(** [int(dt.strftime('%W'))]: the week of the year with Monday as the
    first day of the week, the days before the first Monday in week
    0. *)
Definition strftime_W (dt : datetime) : Z :=
  (tm_yday dt - 1 + 7 - weekday dt) / 7.

(** [range(a, b)] as a list. *)
Definition py_range (a b : Z) : list Z := seqZ a (b - a).

(** Truth value of an [Optional[str]]: [None] and the empty string are
    false. *)
Definition truthy (s : option string) : bool :=
  match s with
  | Some (String _ _) => true
  | _ => false
  end.

(** [a or b] on strings. *)
Definition str_or (a : option string) (b : string) : string :=
  match a with
  | Some (String c s) => String c s
  | _ => b
  end.

(** The values a caller can pass as [date_input]. [InOther] stands for
    a value of any other type and carries what [type(date_input)]
    prints as. *)
Inductive DateInput : Type :=
| InNone
| InStr (s : string)
| InDate (d : date)
| InDatetime (dt : datetime)
| InOther (type_repr : string).

Record DateConfig : Type := { default_input_format : string }.

(** The [HolidayProvider] interface. A provider may keep state of its
    own (a cache, a connection, a mock's call counter), so
    [get_holidays] runs on a provider state. *)
Class HolidayProvider (PState : Type) : Type := {
  get_holidays : Z -> string -> PState -> result (gset date) * PState
}.

(** What a call can observe and change: the provider's state, the
    record of the [get_holidays] calls made so far, and the clock. *)
Record world (PState : Type) : Type := mkworld {
  provider : PState;
  calls : list (Z * string);
  clock : datetime
}.
Arguments mkworld {PState} _ _ _.
Arguments provider {PState} _.
Arguments calls {PState} _.
Arguments clock {PState} _.

Definition M (PState A : Type) : Type :=
  world PState -> result A * world PState.

Definition ret {PState A} (a : A) : M PState A := fun w => (Ok a, w).

Definition raise {PState A} (e : exn) : M PState A := fun w => (Raise e, w).

Definition bind {PState A B} (m : M PState A) (k : A -> M PState B)
  : M PState B :=
  fun w =>
    match m w with
    | (Ok a, w') => k a w'
    | (Raise e, w') => (Raise e, w')
    end.

Definition lift {PState A} (r : result A) : M PState A := fun w => (r, w).

Notation "'let!' x ':=' m 'in' k" := (bind m (fun x => k))
  (at level 10, x name, m at level 100, k at level 200).

(** [abs(n)] *)
Definition py_abs (n : Z) : Z := Z.abs n.

(** [current.weekday() < 5 and current.date() not in holidays] *)
Definition is_working_day (holidays : gset date) (d : date) : bool :=
  (date_weekday d <? 5) && bool_decide (d ∉ holidays).

Definition step_of (days : Z) : Z := if days >? 0 then 1 else -1.

(** The measure that makes the stepping loop end: every pass moves
    [current] one day towards the end of [date]'s range. *)
Definition room (days : Z) (current : datetime) : nat :=
  if days >? 0 then Z.to_nat (_MAXORDINAL - toordinal (date_of current))
  else Z.to_nat (toordinal (date_of current)).

(** A value together with the fact that it is the value of [x]. *)
Definition inspect {A : Type} (x : A) : {y : A | x = y} := exist _ x eq_refl.

(** The loop of [add_working_days]:
<<
        while days_remaining > 0:
            current += timedelta(days=step)
            if current.weekday() < 5 and current.date() not in holidays:
                days_remaining -= 1
        return current
>>
    with [step = 1 if days > 0 else -1]. *)
Equations while_days_remaining (days : Z) (holidays : gset date)
    (current : datetime) (days_remaining : Z) : result datetime
    by wf (room days current) lt :=
  while_days_remaining days holidays current days_remaining
    with (days_remaining >? 0) => {
    | false := Ok current
    | true with inspect (add_days current (step_of days)) => {
      | exist _ (Raise e) Hraise := Raise e
      | exist _ (Ok next) Hnext :=
          while_days_remaining days holidays next
            (if is_working_day holidays (date_of next)
             then days_remaining - 1 else days_remaining)
      }
    }.
Next Obligation.
  intros. cbv beta in Hnext. revert Hnext.
  unfold add_days, step_of, room.
  destruct (days >? 0); simpl;
    destruct (_ <? _) eqn:Hlo; destruct (_ <=? _) eqn:Hhi; simpl;
    intros [= <-]; simpl; unfold _MAXORDINAL in *; lia.
Qed.

(** ** The service *)

Section DateService.

Context {PState : Type} {HP : HolidayProvider PState}.

(** [self.config] *)
Variable config : DateConfig.

(** [datetime.strptime(s, fmt)], with [None] for a [ValueError]. *)
Variable strptime : string -> string -> option datetime.

Definition normalize (date_input : DateInput) (input_format : option string)
  : M PState datetime :=
  match date_input with
  | InNone => fun w => (Ok (clock w), w)
  | InDatetime dt => ret dt
  | InDate d => ret (combine d midnight)
  | InStr s =>
      let format := str_or input_format (default_input_format config) in
      match strptime s format with
      | Some dt => ret dt
      | None =>
          raise (DateOperationError
                   ("Could not parse '" +:+ s +:+ "' with format '"
                    +:+ format +:+ "'"))
      end
  | InOther type_repr =>
      raise (TypeError ("Unsupported type: " +:+ type_repr))
  end.

(** [self.holiday_provider.get_holidays(year, country_code)], recorded
    in [calls]. *)
Definition call_get_holidays (year : Z) (country_code : string)
  : M PState (gset date) :=
  fun w =>
    let '(r, s) := get_holidays year country_code (provider w) in
    (r, mkworld s (calls w ++ [(year, country_code)]) (clock w)).

(** [for year in years: holidays.update(get_holidays(year, cc))] *)
Fixpoint for_year_in (years : list Z) (country_code : string)
    (holidays : gset date) : M PState (gset date) :=
  match years with
  | [] => ret holidays
  | year :: years =>
      let! fetched := call_get_holidays year country_code in
      for_year_in years country_code (holidays ∪ fetched)
  end.

Definition _get_holiday_set (years : list Z) (country_code : option string)
  : M PState (gset date) :=
  match country_code with
  | Some (String c s) => for_year_in years (String c s) ∅
  | _ => ret ∅
  end.

(** [list(range(dt.year, dt.year + (days // 200) + 2))] *)
Definition required_years (dt : datetime) (days : Z) : list Z :=
  py_range (year dt) (year dt + days / 200 + 2).

Definition add_working_days (date_input : DateInput) (days : Z)
    (country_code : option string) : M PState datetime :=
  if days =? 0 then normalize date_input None
  else
    let! dt := normalize date_input None in
    let! holidays := _get_holiday_set (required_years dt days) country_code in
    lift (while_days_remaining days holidays dt (py_abs days)).

(** No holidays are in play: the country code is absent or empty, or the
    provider answers every call with the empty set. *)
Definition no_holidays (country_code : option string) : Prop :=
  truthy country_code = false
  \/ forall year c p, fst (get_holidays year c p) = Ok ∅.

(** [WEEK_DAYS] *)
Definition WEEK_DAYS : gmap string Z :=
  list_to_map
    [("mon", 0); ("tue", 1); ("wed", 2); ("thu", 3); ("fri", 4);
     ("sat", 5); ("sun", 6)].

(** [dt - timedelta(days=dt.weekday())]; subtracting a [timedelta] is
    adding its negation. *)
Definition first_day_of_week (date_input : DateInput) : M PState datetime :=
  let! dt := normalize date_input None in
  lift (add_days dt (- weekday dt)).

Definition last_day_of_week (date_input : DateInput) : M PState datetime :=
  let! dt := normalize date_input None in
  lift (add_days dt (6 - weekday dt)).

(** [self.WEEK_DAYS[week_day]] raises [KeyError] for a key the dict does
    not hold; the exception carries the key. *)
Definition date_of_weekday (date_input : DateInput) (week_day : string)
  : M PState datetime :=
  let! start_of_week := first_day_of_week date_input in
  match WEEK_DAYS !! week_day with
  | Some k => lift (add_days start_of_week k)
  | None => raise (OtherError "KeyError" week_day)
  end.

Definition fist_day_of_month (date_input : DateInput) : M PState datetime :=
  let! dt := normalize date_input None in
  lift (replace dt None (Some 1)).

Definition last_day_of_month (date_input : DateInput) : M PState datetime :=
  let! dt := normalize date_input None in
  let! range := lift (monthrange (year dt) (month dt)) in
  lift (replace dt None (Some (snd range))).

Definition day_of_year (date_input : DateInput) : M PState Z :=
  let! dt := normalize date_input None in
  ret (tm_yday dt).

(** [week_of_year]: ['iso'], ['us'], and for every other [standard],
    [None] included, the week number [%W] of [strftime]. *)
Definition week_of_year (date_input : DateInput) (standard : option string)
  : M PState Z :=
  let! dt := normalize date_input None in
  if bool_decide (standard = Some "iso") then
    ret (snd (fst (isocalendar dt)))
  else if bool_decide (standard = Some "us") then
    let! jan1 := lift (replace dt (Some 1) (Some 1)) in
    let jan1_sunday_based := (weekday jan1 + 1) mod 7 in
    let day_of_year := tm_yday dt in
    ret ((day_of_year + jan1_sunday_based - 1) / 7 + 1)
  else
    ret (strftime_W dt).

End DateService.

(** A provider in the manner of the test suite's mock: it keeps no
    state and answers every call with the same set. *)
Definition mock_provider (answer : gset date) : HolidayProvider unit :=
  {| get_holidays := fun _ _ s => (Ok answer, s) |}.

(** A provider whose call for the year [bad] fails. *)
Definition failing_provider (bad : Z) (e : exn) : HolidayProvider unit :=
  {| get_holidays := fun year _ s =>
       if year =? bad then (Raise e, s) else (Ok ∅, s) |}.

Definition config0 : DateConfig := {| default_input_format := "%d.%m.%Y" |}.

(** A [strptime] that knows one string under one format. *)
Definition strptime0 (s fmt : string) : option datetime :=
  if (s =? "01.01.2024")%string && (fmt =? "%d.%m.%Y")%string
  then Some (combine (mkdate 2024 1 1) midnight)
  else None.

Definition w0 : world unit :=
  mkworld tt [] (combine (mkdate 2025 6 15) (mktime 12 0 0 0)).

(** The year span in the words of the specification: the inclusive span
    from [refYear] to [refYear + floor(|offset| / 200) + 2]. *)
Definition spec_year_span (refYear offset : Z) : list Z :=
  py_range refYear (refYear + Z.abs offset / 200 + 2 + 1).

(** ** Inputs for the concrete calls *)

Definition monday : datetime := combine (mkdate 2024 1 1) midnight.
Definition friday : datetime := combine (mkdate 2024 1 5) midnight.
Definition saturday : datetime := combine (mkdate 2024 1 6) midnight.
Definition next_monday : datetime := combine (mkdate 2024 1 8) midnight.
Definition next_tuesday : datetime := combine (mkdate 2024 1 9) midnight.
Definition last_day : datetime := combine (mkdate 9999 12 31) midnight.

(** The log after [add_working_days] has asked for [years]. *)
Definition asked (years : list Z) (c : string) : world unit :=
  mkworld tt ((fun y => (y, c)) <$> years) (clock w0).

(** A Friday start and a holiday on the Monday after it: one working
    day forward is the Tuesday. *)
Definition holiday_monday : gset date := {[ mkdate 2024 1 8 ]}.

Definition holiday_saturday : gset date := {[ mkdate 2024 1 6 ]}.
Definition wednesday : datetime := combine (mkdate 2024 1 3) midnight.
Definition sunday : datetime := combine (mkdate 2024 1 7) midnight.
Definition january_31 : datetime := combine (mkdate 2024 1 31) midnight.
Definition february_29 : datetime := combine (mkdate 2024 2 29) midnight.

(** The mock of the test suite with its default answer, no holidays. *)
Definition P0 : HolidayProvider unit := mock_provider ∅.

Definition http_error : exn := OtherError "HTTPError" "503 Service Unavailable".

(** [sub] occurs in [s]. *)
Definition contains (s sub : string) : Prop :=
  exists pre post, s = pre +:+ sub +:+ post.

(** ** Counting working days *)

(** Working days among the [n] days that start at ordinal [lo]. *)
Fixpoint count_from (holidays : gset date) (lo : Z) (n : nat) : Z :=
  match n with
  | O => 0
  | S n =>
      (if is_working_day holidays (fromordinal lo) then 1 else 0)
      + count_from holidays (lo + 1) n
  end.

(** Working days with an ordinal in [lo .. hi], both ends included. *)
Definition working_days_between (holidays : gset date) (lo hi : Z) : Z :=
  count_from holidays lo (Z.to_nat (hi - lo + 1)).

Definition working (holidays : gset date) (o : Z) : Z :=
  if is_working_day holidays (fromordinal o) then 1 else 0.

Lemma working_range holidays o : 0 <= working holidays o <= 1.
Proof. unfold working. destruct (is_working_day _ _); lia. Qed.

Lemma count_from_nonneg holidays n : forall lo, 0 <= count_from holidays lo n.
Proof.
  induction n as [|n IH]; intros lo; simpl; [lia|].
  specialize (IH (lo + 1)). destruct (is_working_day _ _); lia.
Qed.

Lemma count_from_snoc holidays n : forall lo,
  count_from holidays lo (S n) =
  count_from holidays lo n + working holidays (lo + Z.of_nat n).
Proof.
  induction n as [|n IH]; intros lo.
  - cbn [count_from Z.of_nat]. unfold working. rewrite !Z.add_0_r. lia.
  - change (count_from holidays lo (S (S n)))
      with (working holidays lo + count_from holidays (lo + 1) (S n)).
    rewrite IH. cbn [count_from]. fold (working holidays lo).
    replace (lo + 1 + Z.of_nat n) with (lo + Z.of_nat (S n)) by lia. lia.
Qed.

Lemma between_empty holidays lo hi :
  hi < lo -> working_days_between holidays lo hi = 0.
Proof.
  intros H. unfold working_days_between.
  replace (Z.to_nat (hi - lo + 1)) with O by lia. reflexivity.
Qed.

Lemma between_first holidays lo hi :
  lo <= hi ->
  working_days_between holidays lo hi =
  working holidays lo + working_days_between holidays (lo + 1) hi.
Proof.
  intros H. unfold working_days_between.
  replace (Z.to_nat (hi - lo + 1)) with (S (Z.to_nat (hi - (lo + 1) + 1)))
    by lia.
  reflexivity.
Qed.

Lemma between_last holidays lo hi :
  lo <= hi ->
  working_days_between holidays lo hi =
  working_days_between holidays lo (hi - 1) + working holidays hi.
Proof.
  intros H. unfold working_days_between.
  replace (Z.to_nat (hi - lo + 1)) with (S (Z.to_nat (hi - 1 - lo + 1)))
    by lia.
  rewrite count_from_snoc. f_equal. f_equal. lia.
Qed.

Lemma between_nonneg holidays lo hi :
  0 <= working_days_between holidays lo hi.
Proof. apply count_from_nonneg. Qed.

Lemma between_mono holidays lo hi hi' :
  hi <= hi' ->
  working_days_between holidays lo hi <= working_days_between holidays lo hi'.
Proof.
  intros H. replace hi' with (hi + Z.of_nat (Z.to_nat (hi' - hi))) by lia.
  induction (Z.to_nat (hi' - hi)) as [|n IH].
  - simpl. rewrite Z.add_0_r. lia.
  - destruct (Z_lt_le_dec (hi + Z.of_nat (S n)) lo) as [Hlt|Hle].
    + rewrite (between_empty _ lo hi) by lia. apply between_nonneg.
    + rewrite (between_last _ lo (hi + Z.of_nat (S n))) by lia.
      replace (hi + Z.of_nat (S n) - 1) with (hi + Z.of_nat n) by lia.
      pose proof (working_range holidays (hi + Z.of_nat (S n))). lia.
Qed.

Lemma between_mono_lo holidays lo lo' hi :
  lo <= lo' ->
  working_days_between holidays lo' hi <= working_days_between holidays lo hi.
Proof.
  intros H. replace lo with (lo' - Z.of_nat (Z.to_nat (lo' - lo))) by lia.
  induction (Z.to_nat (lo' - lo)) as [|n IH].
  - simpl. rewrite Z.sub_0_r. lia.
  - destruct (Z_lt_le_dec hi (lo' - Z.of_nat (S n))) as [Hlt|Hle].
    + rewrite (between_empty _ lo' hi) by lia. apply between_nonneg.
    + rewrite (between_first _ (lo' - Z.of_nat (S n))) by lia.
      replace (lo' - Z.of_nat (S n) + 1) with (lo' - Z.of_nat n) by lia.
      pose proof (working_range holidays (lo' - Z.of_nat (S n))). lia.
Qed.

(** ** The stepping loop *)

(** The loop, unfolded once. *)
Lemma while_days_remaining_eq days holidays current days_remaining :
  while_days_remaining days holidays current days_remaining =
  if days_remaining >? 0 then
    match add_days current (step_of days) with
    | Raise e => Raise e
    | Ok next =>
        while_days_remaining days holidays next
          (if is_working_day holidays (date_of next)
           then days_remaining - 1 else days_remaining)
    end
  else Ok current.
Proof.
  funelim (while_days_remaining days holidays current days_remaining).
  - rewrite Heq. reflexivity.
  - rewrite Heq, Hnext. reflexivity.
  - rewrite Heq. destruct (add_days current (step_of days)); congruence.
Qed.

Lemma while_done days holidays current days_remaining :
  days_remaining <= 0 ->
  while_days_remaining days holidays current days_remaining = Ok current.
Proof.
  intros H. rewrite while_days_remaining_eq.
  destruct (days_remaining >? 0) eqn:E; [lia | reflexivity].
Qed.

Lemma while_next days holidays current days_remaining next :
  0 < days_remaining ->
  add_days current (step_of days) = Ok next ->
  while_days_remaining days holidays current days_remaining =
  while_days_remaining days holidays next
    (if is_working_day holidays (date_of next)
     then days_remaining - 1 else days_remaining).
Proof.
  intros H Hn. rewrite while_days_remaining_eq, Hn.
  destruct (days_remaining >? 0) eqn:E; [reflexivity | lia].
Qed.

Lemma while_overflow days holidays current days_remaining e :
  0 < days_remaining ->
  add_days current (step_of days) = Raise e ->
  while_days_remaining days holidays current days_remaining = Raise e.
Proof.
  intros H Hn. rewrite while_days_remaining_eq, Hn.
  destruct (days_remaining >? 0) eqn:E; [reflexivity | lia].
Qed.

(** Drops what [funelim] records about the inspected step once the
    equation [Hnext] carries the same information. *)
Ltac forget_inspect :=
  repeat match goal with
         | H : _ = while_days_remaining _ _ _ _ |- _ => clear H
         | H : @eq (sigma _) _ _ |- _ => clear H
         end.

Lemma add_days_ok current k next :
  add_days current k = Ok next <->
  next = combine (fromordinal (toordinal (date_of current) + k))
                 (time_of current)
  /\ 0 < toordinal (date_of current) + k <= _MAXORDINAL.
Proof.
  unfold add_days.
  destruct (0 <? _) eqn:Hlo; destruct (_ <=? _MAXORDINAL) eqn:Hhi; simpl;
    split; try (intros [= <-]; split; [reflexivity | lia]);
    try discriminate; intros [-> ?]; try reflexivity; lia.
Qed.

Lemma add_days_raise current k e :
  add_days current k = Raise e ->
  ~ (0 < toordinal (date_of current) + k <= _MAXORDINAL)
  /\ exists msg, e = OverflowError msg.
Proof.
  unfold add_days.
  destruct (0 <? _) eqn:Hlo; destruct (_ <=? _MAXORDINAL) eqn:Hhi; simpl;
    try discriminate; intros [= <-]; (split; [lia | eauto]).
Qed.

Lemma step_of_forward days : 0 < days -> step_of days = 1.
Proof. unfold step_of. destruct (days >? 0) eqn:E; [reflexivity | lia]. Qed.

Lemma step_of_backward days : days <= 0 -> step_of days = -1.
Proof. unfold step_of. destruct (days >? 0) eqn:E; [lia | reflexivity]. Qed.

Lemma working_date holidays (d : date) :
  working holidays (toordinal d) = if is_working_day holidays d then 1 else 0.
Proof. destruct d. reflexivity. Qed.

(** Stepping forward: the loop stops on the [days_remaining]-th working
    day after [current]. *)
Lemma forward_sound days holidays current days_remaining :
  forall r,
  0 < days -> 0 < days_remaining ->
  while_days_remaining days holidays current days_remaining = Ok r ->
  toordinal (date_of current) < toordinal (date_of r) <= _MAXORDINAL
  /\ time_of r = time_of current
  /\ is_working_day holidays (date_of r) = true
  /\ working_days_between holidays
       (toordinal (date_of current) + 1) (toordinal (date_of r))
     = days_remaining.
Proof.
  funelim (while_days_remaining days holidays current days_remaining);
    intros r Hdays Hrem Hrun.
  - lia.
  - forget_inspect.
    rewrite step_of_forward in Hnext by assumption.
    apply add_days_ok in Hnext as [-> Hrange]. simpl in *.
    set (o := toordinal (date_of current)) in *.
    destruct (is_working_day holidays (fromordinal (o + 1))) eqn:Hw.
    + destruct (Z_le_gt_dec (days_remaining - 1) 0) as [Hz|Hpos].
      * rewrite while_done in Hrun by assumption. injection Hrun as <-.
        simpl. repeat split; try lia; try assumption.
        rewrite between_first, between_empty by lia.
        unfold working. rewrite Hw. lia.
      * destruct (H r Hdays ltac:(lia) Hrun) as (Ho & Ht & Hwr & Hc).
        simpl in *. repeat split; try lia; try assumption.
        rewrite between_first by lia. unfold working. rewrite Hw.
        replace (o + 1 + 1) with (o + 1 + 1) in Hc by lia. lia.
    + destruct (H r Hdays Hrem Hrun) as (Ho & Ht & Hwr & Hc).
      simpl in *. repeat split; try lia; try assumption.
      rewrite between_first by lia. unfold working. rewrite Hw. lia.
  - discriminate.
Qed.

(** Stepping backward: the loop stops on the [days_remaining]-th working
    day before [current]. *)
Lemma backward_sound days holidays current days_remaining :
  forall r,
  days < 0 -> 0 < days_remaining ->
  while_days_remaining days holidays current days_remaining = Ok r ->
  1 <= toordinal (date_of r) < toordinal (date_of current)
  /\ time_of r = time_of current
  /\ is_working_day holidays (date_of r) = true
  /\ working_days_between holidays
       (toordinal (date_of r)) (toordinal (date_of current) - 1)
     = days_remaining.
Proof.
  funelim (while_days_remaining days holidays current days_remaining);
    intros r Hdays Hrem Hrun.
  - lia.
  - forget_inspect.
    rewrite step_of_backward in Hnext by lia.
    apply add_days_ok in Hnext as [-> Hrange]. simpl in *.
    set (o := toordinal (date_of current)) in *.
    destruct (is_working_day holidays (fromordinal (o + -1))) eqn:Hw.
    + destruct (Z_le_gt_dec (days_remaining - 1) 0) as [Hz|Hpos].
      * rewrite while_done in Hrun by assumption. injection Hrun as <-.
        simpl. repeat split; try lia; try assumption.
        replace (o - 1) with (o + -1) by lia.
        rewrite between_last, between_empty by lia.
        unfold working. rewrite Hw. lia.
      * destruct (H r Hdays ltac:(lia) Hrun) as (Ho & Ht & Hwr & Hc).
        simpl in *. repeat split; try lia; try assumption.
        rewrite between_last by lia. unfold working.
        replace (o - 1) with (o + -1) by lia. rewrite Hw. lia.
    + destruct (H r Hdays Hrem Hrun) as (Ho & Ht & Hwr & Hc).
      simpl in *. repeat split; try lia; try assumption.
      rewrite between_last by lia. unfold working.
      replace (o - 1) with (o + -1) by lia. rewrite Hw. lia.
  - discriminate.
Qed.

Lemma between_ends_working holidays lo hi :
  lo <= hi -> is_working_day holidays (fromordinal hi) = true ->
  1 <= working_days_between holidays lo hi.
Proof.
  intros H Hw. rewrite between_last by assumption.
  unfold working. rewrite Hw.
  pose proof (between_nonneg holidays lo (hi - 1)). lia.
Qed.

Lemma between_starts_working holidays lo hi :
  lo <= hi -> is_working_day holidays (fromordinal lo) = true ->
  1 <= working_days_between holidays lo hi.
Proof.
  intros H Hw. rewrite between_first by assumption.
  unfold working. rewrite Hw.
  pose proof (between_nonneg holidays (lo + 1) hi). lia.
Qed.

(** Conversely, the loop finds the [days_remaining]-th working day
    after [current] whenever the calendar holds one. *)
Lemma forward_complete days holidays current days_remaining :
  forall x,
  0 < days -> 0 < days_remaining ->
  0 <= toordinal (date_of current) ->
  toordinal (date_of current) < x <= _MAXORDINAL ->
  is_working_day holidays (fromordinal x) = true ->
  working_days_between holidays (toordinal (date_of current) + 1) x
  = days_remaining ->
  while_days_remaining days holidays current days_remaining
  = Ok (combine (fromordinal x) (time_of current)).
Proof.
  funelim (while_days_remaining days holidays current days_remaining);
    intros x Hdays Hrem Hlo Hx Hwx Hcount.
  - lia.
  - forget_inspect.
    rewrite step_of_forward in Hnext by assumption.
    apply add_days_ok in Hnext as [-> Hrange]. simpl in *.
    set (o := toordinal (date_of current)) in *.
    rewrite between_first in Hcount by lia. unfold working in Hcount.
    destruct (Z.eq_dec x (o + 1)) as [->|Hne].
    + rewrite Hwx in *. rewrite between_empty in Hcount by lia.
      rewrite while_done by lia. reflexivity.
    + pose proof (between_ends_working holidays (o + 1 + 1) x
                    ltac:(lia) Hwx) as Hge.
      apply H; try assumption; try lia;
        destruct (is_working_day holidays (fromordinal (o + 1))); lia.
  - forget_inspect. apply add_days_raise in Hraise as [Hout _].
    rewrite step_of_forward in Hout by assumption. lia.
Qed.

Lemma backward_complete days holidays current days_remaining :
  forall x,
  days < 0 -> 0 < days_remaining ->
  toordinal (date_of current) <= _MAXORDINAL + 1 ->
  1 <= x < toordinal (date_of current) ->
  is_working_day holidays (fromordinal x) = true ->
  working_days_between holidays x (toordinal (date_of current) - 1)
  = days_remaining ->
  while_days_remaining days holidays current days_remaining
  = Ok (combine (fromordinal x) (time_of current)).
Proof.
  funelim (while_days_remaining days holidays current days_remaining);
    intros x Hdays Hrem Hhi Hx Hwx Hcount.
  - lia.
  - forget_inspect.
    rewrite step_of_backward in Hnext by lia.
    apply add_days_ok in Hnext as [-> Hrange]. simpl in *.
    set (o := toordinal (date_of current)) in *.
    rewrite between_last in Hcount by lia. unfold working in Hcount.
    replace (o - 1) with (o + -1) in Hcount by lia.
    destruct (Z.eq_dec x (o + -1)) as [->|Hne].
    + rewrite Hwx in *. rewrite between_empty in Hcount by lia.
      rewrite while_done by lia. reflexivity.
    + pose proof (between_starts_working holidays x (o + -1 - 1)
                    ltac:(lia) Hwx) as Hge.
      apply H; try assumption; try lia;
        destruct (is_working_day holidays (fromordinal (o + -1))); lia.
  - forget_inspect. apply add_days_raise in Hraise as [Hout _].
    rewrite step_of_backward in Hout by lia. lia.
Qed.

(** The loop always ends, and the only exception it can raise is the
    [OverflowError] of the date addition. *)
Lemma while_total days holidays current days_remaining :
  (exists r, while_days_remaining days holidays current days_remaining = Ok r)
  \/ (exists msg,
        while_days_remaining days holidays current days_remaining
        = Raise (OverflowError msg)).
Proof.
  funelim (while_days_remaining days holidays current days_remaining).
  - left. eauto.
  - assumption.
  - forget_inspect. apply add_days_raise in Hraise as [_ [msg ->]].
    right. eauto.
Qed.

Lemma forward_enough days holidays current days_remaining :
  0 < days -> 0 < days_remaining ->
  0 <= toordinal (date_of current) ->
  days_remaining
  <= working_days_between holidays
       (toordinal (date_of current) + 1) _MAXORDINAL ->
  exists r, while_days_remaining days holidays current days_remaining = Ok r.
Proof.
  funelim (while_days_remaining days holidays current days_remaining);
    intros Hdays Hrem Hlo Hcount.
  - lia.
  - forget_inspect.
    rewrite step_of_forward in Hnext by assumption.
    apply add_days_ok in Hnext as [-> Hrange]. simpl in *.
    set (o := toordinal (date_of current)) in *.
    rewrite between_first in Hcount by lia. unfold working in Hcount.
    destruct (is_working_day holidays (fromordinal (o + 1))).
    + destruct (Z_le_gt_dec (days_remaining - 1) 0) as [Hz|Hpos].
      * rewrite while_done by assumption. eauto.
      * apply H; lia.
    + apply H; lia.
  - forget_inspect. apply add_days_raise in Hraise as [Hout _].
    rewrite step_of_forward in Hout by assumption.
    rewrite between_empty in Hcount by lia. lia.
Qed.

Lemma backward_enough days holidays current days_remaining :
  days < 0 -> 0 < days_remaining ->
  toordinal (date_of current) <= _MAXORDINAL + 1 ->
  days_remaining
  <= working_days_between holidays 1 (toordinal (date_of current) - 1) ->
  exists r, while_days_remaining days holidays current days_remaining = Ok r.
Proof.
  funelim (while_days_remaining days holidays current days_remaining);
    intros Hdays Hrem Hhi Hcount.
  - lia.
  - forget_inspect.
    rewrite step_of_backward in Hnext by lia.
    apply add_days_ok in Hnext as [-> Hrange]. simpl in *.
    set (o := toordinal (date_of current)) in *.
    rewrite between_last in Hcount by lia. unfold working in Hcount.
    replace (o - 1) with (o + -1) in Hcount by lia.
    destruct (is_working_day holidays (fromordinal (o + -1))).
    + destruct (Z_le_gt_dec (days_remaining - 1) 0) as [Hz|Hpos].
      * rewrite while_done by assumption. eauto.
      * apply H; lia.
    + apply H; lia.
  - forget_inspect. apply add_days_raise in Hraise as [Hout _].
    rewrite step_of_backward in Hout by lia.
    rewrite between_empty in Hcount by lia. lia.
Qed.

(** ** Properties of the service *)

Lemma string_app_assoc (a b c : string) : (a +:+ b) +:+ c = a +:+ b +:+ c.
Proof.
  induction a as [|x a IH]; [reflexivity|].
  change (String x ((a +:+ b) +:+ c) = String x (a +:+ b +:+ c)).
  f_equal. exact IH.
Qed.

Lemma py_range_elem a b y : y ∈ py_range a b <-> a <= y < b.
Proof. unfold py_range. rewrite elem_of_seqZ. lia. Qed.

Lemma py_range_empty a b : b <= a -> py_range a b = [].
Proof. intros H. apply seqZ_nil. lia. Qed.

Lemma py_range_cons a b : a < b -> py_range a b = a :: py_range (a + 1) b.
Proof.
  intros H. unfold py_range. rewrite seqZ_cons by lia.
  f_equal. f_equal; lia.
Qed.

Lemma py_range_length a b : Z.of_nat (length (py_range a b)) = Z.max 0 (b - a).
Proof. unfold py_range. rewrite length_seqZ. lia. Qed.

Ltac run_while :=
  repeat first
    [ rewrite while_done by (vm_compute; discriminate)
    | erewrite while_next by (vm_compute; reflexivity);
      match goal with
      | |- context [is_working_day ?h ?d] =>
          let b := eval vm_compute in (is_working_day h d) in
          change (is_working_day h d) with b
      end; cbv iota
    | erewrite while_overflow by (vm_compute; reflexivity) ].

Section Properties.

Context {PState : Type} {HP : HolidayProvider PState}.
Variable config : DateConfig.
Variable strptime : string -> string -> option datetime.

Local Abbreviation normalize := (normalize (PState:=PState) config strptime).
Local Abbreviation add_working_days := (add_working_days config strptime).

Lemma normalize_world date_input input_format w :
  snd (normalize date_input input_format w) = w.
Proof.
  destruct date_input; simpl; try reflexivity.
  destruct (strptime _ _); reflexivity.
Qed.

Lemma normalize_ok_world date_input input_format w dt w' :
  normalize date_input input_format w = (Ok dt, w') -> w' = w.
Proof.
  intros H. rewrite <- (normalize_world date_input input_format w), H.
  reflexivity.
Qed.

Lemma get_holiday_set_absent years country_code (w : world PState) :
  truthy country_code = false ->
  _get_holiday_set years country_code w = (Ok ∅, w).
Proof. destruct country_code as [[|c s]|]; [reflexivity|discriminate|reflexivity]. Qed.

Lemma get_holiday_set_present years c s (w : world PState) :
  _get_holiday_set years (Some (String c s)) w
  = for_year_in years (String c s) ∅ w.
Proof. reflexivity. Qed.

(** [add_working_days] past its zero test and its normalisation. *)
Lemma add_working_days_nonzero date_input days country_code w dt :
  days <> 0 ->
  normalize date_input None w = (Ok dt, w) ->
  add_working_days date_input days country_code w =
  match _get_holiday_set (required_years dt days) country_code w with
  | (Ok holidays, w1) =>
      (while_days_remaining days holidays dt (py_abs days), w1)
  | (Raise e, w1) => (Raise e, w1)
  end.
Proof.
  intros Hdays Hnorm. unfold add_working_days.
  destruct (days =? 0) eqn:E; [lia|].
  unfold bind. rewrite Hnorm.
  destruct (_get_holiday_set _ _ _) as [[holidays|e] w1]; reflexivity.
Qed.

Lemma add_working_days_raise date_input days country_code w e w' :
  days <> 0 ->
  normalize date_input None w = (Raise e, w') ->
  add_working_days date_input days country_code w = (Raise e, w').
Proof.
  intros Hdays Hnorm. unfold add_working_days.
  destruct (days =? 0) eqn:E; [lia|].
  unfold bind. rewrite Hnorm. reflexivity.
Qed.

(** A successful call went through all three stages. *)
Lemma add_working_days_inv date_input days country_code w r w' :
  days <> 0 ->
  add_working_days date_input days country_code w = (Ok r, w') ->
  exists start holidays,
    normalize date_input None w = (Ok start, w)
    /\ _get_holiday_set (required_years start days) country_code w
       = (Ok holidays, w')
    /\ while_days_remaining days holidays start (py_abs days) = Ok r.
Proof.
  intros Hdays Hrun.
  destruct (normalize date_input None w) as [[start|e] w1] eqn:Hnorm.
  - pose proof (normalize_ok_world _ _ _ _ _ Hnorm) as ->.
    rewrite (add_working_days_nonzero _ _ _ _ _ Hdays Hnorm) in Hrun.
    destruct (_get_holiday_set _ _ _) as [[holidays|e] w1] eqn:Hset;
      [|discriminate].
    injection Hrun as Hloop <-. eauto.
  - rewrite (add_working_days_raise _ _ _ _ _ _ Hdays Hnorm) in Hrun.
    discriminate.
Qed.

Lemma is_working_day_empty d :
  is_working_day ∅ d = (date_weekday d <? 5).
Proof.
  unfold is_working_day. rewrite bool_decide_eq_true_2 by set_solver.
  apply andb_true_r.
Qed.

(** C3: with a zero offset [add_working_days] is [normalize]: the same
    result for every input and every country code, the world left as it
    was, so no holiday set is resolved and no provider call is made. *)
Theorem add_working_days_zero date_input country_code w :
  add_working_days date_input 0 country_code w = normalize date_input None w
  /\ snd (add_working_days date_input 0 country_code w) = w
  /\ calls (snd (add_working_days date_input 0 country_code w)) = calls w.
Proof.
  assert (add_working_days date_input 0 country_code w
          = normalize date_input None w) as Heq by reflexivity.
  rewrite Heq, normalize_world. auto.
Qed.

(** C4: with a non-zero offset and an absent or empty country code the
    resolved holiday set is empty, the provider is not called (the world
    is unchanged), the stepping runs on the empty set, and on the empty
    set every Monday-to-Friday date counts as a working day. *)
Theorem absent_country_code date_input days country_code w :
  days <> 0 ->
  country_code = None \/ country_code = Some EmptyString ->
  (forall years, _get_holiday_set years country_code w = (Ok ∅, w))
  /\ snd (add_working_days date_input days country_code w) = w
  /\ add_working_days date_input days country_code w
     = (let! dt := normalize date_input None in
        lift (while_days_remaining days ∅ dt (py_abs days))) w
  /\ (forall d, is_working_day ∅ d = true <-> 0 <= date_weekday d < 5).
Proof.
  intros Hdays Hcc.
  assert (truthy country_code = false) as Hfalse
    by (destruct Hcc as [-> | ->]; reflexivity).
  assert (add_working_days date_input days country_code w
     = (let! dt := normalize date_input None in
        lift (while_days_remaining days ∅ dt (py_abs days))) w) as Heq.
  { unfold add_working_days. destruct (days =? 0) eqn:E; [lia|].
    unfold bind. destruct (normalize date_input None w) as [[dt|e] w1];
      [|reflexivity].
    rewrite get_holiday_set_absent by assumption. reflexivity. }
  split; [intros; apply get_holiday_set_absent; assumption|].
  split; [|split; [exact Heq|]].
  - rewrite Heq. unfold bind, lift.
    pose proof (normalize_world date_input None w) as Hw.
    destruct (normalize date_input None w) as [[dt|e] w1]; exact Hw.
  - intros d. rewrite is_working_day_empty. unfold date_weekday.
    pose proof (Z.mod_pos_bound (toordinal d + 6) 7 ltac:(lia)). lia.
Qed.

(** C7: [normalize] raises [DateOperationError] exactly for a string
    that [strptime] rejects under the chosen format (the explicit one
    when given and not empty, else the configured default), and the
    message holds both the string and that format; it raises [TypeError],
    a different exception, exactly for a value of an unsupported type; it
    raises nothing else; [None] gives the clock's reading; a date or a
    datetime never raises. *)
Theorem normalize_raises date_input input_format w :
  let format := str_or input_format (default_input_format config) in
  ((exists msg, fst (normalize date_input input_format w)
                = Raise (DateOperationError msg))
   <-> exists s, date_input = InStr s /\ strptime s format = None)
  /\ (forall s msg,
        date_input = InStr s ->
        fst (normalize date_input input_format w)
        = Raise (DateOperationError msg) ->
        contains msg s /\ contains msg format)
  /\ ((exists msg, fst (normalize date_input input_format w)
                   = Raise (TypeError msg))
      <-> exists type_repr, date_input = InOther type_repr)
  /\ (forall e, fst (normalize date_input input_format w) = Raise e ->
        (exists msg, e = DateOperationError msg)
        \/ (exists msg, e = TypeError msg))
  /\ (forall m1 m2, DateOperationError m1 <> TypeError m2)
  /\ (date_input = InNone ->
      normalize date_input input_format w = (Ok (clock w), w))
  /\ (forall d, date_input = InDate d ->
        normalize date_input input_format w = (Ok (combine d midnight), w))
  /\ (forall dt, date_input = InDatetime dt ->
        normalize date_input input_format w = (Ok dt, w)).
Proof.
  intros format. repeat split.
  - intros [msg H]. destruct date_input; simpl in H; try discriminate.
    exists s. split; [reflexivity|]. fold format in H.
    destruct (strptime s format); [discriminate | reflexivity].
  - intros [s [-> H]]. simpl. fold format. rewrite H. simpl. eauto.
  - subst date_input. simpl in H0. fold format in H0.
    destruct (strptime s format); simpl in H0; [discriminate|].
    injection H0 as <-.
    exists "Could not parse '", ("' with format '" +:+ format +:+ "'").
    reflexivity.
  - subst date_input. simpl in H0. fold format in H0.
    destruct (strptime s format); simpl in H0; [discriminate|].
    injection H0 as <-.
    exists ("Could not parse '" +:+ s +:+ "' with format '"), "'".
    rewrite !string_app_assoc. reflexivity.
  - intros [msg H]. destruct date_input; simpl in H; try discriminate.
    + destruct (strptime _ _); discriminate.
    + eauto.
  - intros [t ->]. simpl. eauto.
  - intros e H. destruct date_input; simpl in H; try discriminate.
    + destruct (strptime _ _); simpl in H; [discriminate|].
      injection H as <-. left. eauto.
    + injection H as <-. right. eauto.
  - discriminate.
  - intros ->. reflexivity.
  - intros d ->. reflexivity.
  - intros dt ->. reflexivity.
Qed.

(** C8: from 2024-01-01, a Monday, with no country code, five working
    days forward end on Monday 2024-01-08 and three working days backward
    end on Wednesday 2023-12-27. *)
Theorem scenario_2024_01_01 w :
  let start := mkdate 2024 1 1 in
  date_weekday start = 0
  /\ add_working_days (InDate start) 5 None w
     = (Ok (combine (mkdate 2024 1 8) midnight), w)
  /\ _ord2ymd (toordinal (mkdate 2024 1 8)) = (2024, 1, 8)
  /\ date_weekday (mkdate 2024 1 8) = 0
  /\ add_working_days (InDate start) (-3) None w
     = (Ok (combine (mkdate 2023 12 27) midnight), w)
  /\ _ord2ymd (toordinal (mkdate 2023 12 27)) = (2023, 12, 27)
  /\ date_weekday (mkdate 2023 12 27) = 2.
Proof.
  intros start.
  assert (forall days r,
            days <> 0 ->
            while_days_remaining days ∅ (combine start midnight) (py_abs days)
            = Ok r ->
            add_working_days (InDate start) days None w = (Ok r, w)) as Hrun.
  { intros days r Hdays Hloop.
    rewrite (add_working_days_nonzero _ _ _ _ (combine start midnight))
      by (assumption || reflexivity).
    rewrite get_holiday_set_absent by reflexivity.
    rewrite Hloop. reflexivity. }
  split; [reflexivity|].
  split; [apply Hrun; [lia|]; subst start; run_while; reflexivity|].
  split; [reflexivity|]. split; [reflexivity|].
  split; [apply Hrun; [lia|]; subst start; run_while; reflexivity|].
  split; reflexivity.
Qed.

(** *** The resolver and its provider calls *)

Lemma call_get_holidays_calls year c (w : world PState) :
  calls (snd (call_get_holidays year c w)) = calls w ++ [(year, c)]
  /\ clock (snd (call_get_holidays year c w)) = clock w.
Proof.
  unfold call_get_holidays.
  destruct (get_holidays year c (provider w)). split; reflexivity.
Qed.

Lemma for_year_in_app done rest c : forall holidays (w : world PState),
  for_year_in (done ++ rest) c holidays w =
  match for_year_in done c holidays w with
  | (Ok fetched, w1) => for_year_in rest c fetched w1
  | (Raise e, w1) => (Raise e, w1)
  end.
Proof.
  induction done as [|y done IH]; intros holidays w; [reflexivity|].
  simpl. unfold bind.
  destruct (call_get_holidays y c w) as [[fetched|e] w1]; [apply IH|].
  reflexivity.
Qed.

Lemma for_year_in_ok_calls years c :
  forall holidays (w : world PState) fetched w',
  for_year_in years c holidays w = (Ok fetched, w') ->
  calls w' = calls w ++ ((fun y => (y, c)) <$> years)
  /\ clock w' = clock w.
Proof.
  induction years as [|y years IH]; intros holidays w fetched w' H.
  - injection H as _ <-. rewrite app_nil_r. auto.
  - simpl in H. unfold bind in H.
    pose proof (call_get_holidays_calls y c w) as [Hc Hk].
    destruct (call_get_holidays y c w) as [[one|e] w1]; [|discriminate].
    apply IH in H as [-> ->]. simpl in Hc, Hk. rewrite Hc, Hk.
    rewrite <- app_assoc. auto.
Qed.

Lemma add_working_days_world date_input days country_code w start :
  days <> 0 ->
  normalize date_input None w = (Ok start, w) ->
  snd (add_working_days date_input days country_code w)
  = snd (_get_holiday_set (required_years start days) country_code w).
Proof.
  intros Hdays Hnorm.
  rewrite (add_working_days_nonzero _ _ _ _ _ Hdays Hnorm).
  destruct (_get_holiday_set _ _ _) as [[holidays|e] w1]; reflexivity.
Qed.

Lemma div_200_bounds days :
  (0 < days -> 0 <= days / 200)
  /\ (-200 <= days < 0 -> days / 200 = -1)
  /\ (days <= -201 -> days / 200 <= -2).
Proof.
  pose proof (Z.div_mod days 200 ltac:(lia)).
  pose proof (Z.mod_pos_bound days 200 ltac:(lia)). lia.
Qed.

(** C1, as the code has it: for a positive offset and a present country
    code the years resolved are Python's [range(refYear, refYear +
    offset // 200 + 2)], that is [refYear] up to and including [refYear +
    offset // 200 + 1], each once and in ascending order; when no
    provider call fails, [add_working_days] makes exactly these calls,
    one per year, in that order. For an offset of 250 they are the three
    years [refYear], [refYear + 1], [refYear + 2]. *)
Theorem required_years_forward date_input days c s w start holidays w' :
  0 < days ->
  normalize date_input None w = (Ok start, w) ->
  _get_holiday_set (required_years start days) (Some (String c s)) w
  = (Ok holidays, w') ->
  (forall y, y ∈ required_years start days
             <-> year start <= y <= year start + days / 200 + 1)
  /\ NoDup (required_years start days)
  /\ Z.of_nat (length (required_years start days)) = days / 200 + 2
  /\ calls (snd (add_working_days date_input days (Some (String c s)) w))
     = calls w ++ ((fun y => (y, String c s)) <$> required_years start days)
  /\ (days = 250 ->
      required_years start days
      = [year start; year start + 1; year start + 2]).
Proof.
  intros Hdays Hnorm Hset.
  pose proof (div_200_bounds days) as (Hdiv & _ & _).
  specialize (Hdiv Hdays).
  split; [intros y; unfold required_years; rewrite py_range_elem; lia|].
  split; [apply NoDup_seqZ|].
  split; [unfold required_years; rewrite py_range_length; lia|].
  split.
  - rewrite (add_working_days_world _ _ _ _ start) by (lia || assumption).
    rewrite Hset. simpl.
    rewrite get_holiday_set_present in Hset.
    apply for_year_in_ok_calls in Hset as [-> _]. reflexivity.
  - intros ->. unfold required_years.
    change (250 / 200) with 1.
    do 3 (rewrite py_range_cons by lia). rewrite py_range_empty by lia.
    replace (year start + 1 + 1) with (year start + 2) by lia. reflexivity.
Qed.

(** C10: with a negative offset no year before the reference year is
    resolved; for offsets from -200 to -1 the reference year alone is
    resolved and, with a country code present, queried once; for offsets
    of -201 and below the list of years is empty, so whatever the country
    code the provider is not called, the holiday set is empty and the
    backward stepping runs on the empty set, where only the weekday
    decides. *)
Theorem required_years_backward date_input days country_code w start :
  days < 0 ->
  normalize date_input None w = (Ok start, w) ->
  (forall y, y ∈ required_years start days -> year start <= y)
  /\ (-200 <= days ->
      required_years start days = [year start]
      /\ forall c s, country_code = Some (String c s) ->
           calls (snd (add_working_days date_input days country_code w))
           = calls w ++ [(year start, String c s)])
  /\ (days <= -201 ->
      required_years start days = []
      /\ _get_holiday_set (required_years start days) country_code w
         = (Ok ∅, w)
      /\ add_working_days date_input days country_code w
         = (while_days_remaining days ∅ start (py_abs days), w))
  /\ (forall d, is_working_day ∅ d = (date_weekday d <? 5)).
Proof.
  intros Hdays Hnorm.
  pose proof (div_200_bounds days) as (_ & Hone & Hnone).
  split; [intros y; unfold required_years; rewrite py_range_elem; lia|].
  split; [|split; [|exact is_working_day_empty]].
  - intros Hge.
    assert (required_years start days = [year start]) as Hyears.
    { unfold required_years. rewrite Hone by lia.
      rewrite py_range_cons by lia. rewrite py_range_empty by lia.
      reflexivity. }
    split; [exact Hyears|]. intros c s ->.
    rewrite (add_working_days_world _ _ _ _ start) by (lia || assumption).
    rewrite Hyears. simpl. unfold bind.
    pose proof (call_get_holidays_calls (year start) (String c s) w)
      as [Hc _].
    destruct (call_get_holidays (year start) (String c s) w)
      as [[one|e] w1]; exact Hc.
  - intros Hle.
    assert (required_years start days = []) as Hyears.
    { unfold required_years. apply py_range_empty. specialize (Hnone Hle).
      lia. }
    assert (_get_holiday_set (required_years start days) country_code w
            = (Ok ∅, w)) as Hset.
    { rewrite Hyears. destruct country_code as [[|c s]|]; reflexivity. }
    repeat split; try assumption.
    rewrite (add_working_days_nonzero _ _ _ _ start) by (lia || assumption).
    rewrite Hset. reflexivity.
Qed.

(** C6: when the provider raises [e] for a year of the resolved span,
    the years before it having been fetched, [add_working_days] raises
    the same [e]: the failing year was asked once and no later year at
    all, and the outcome is the exception alone, with neither a date nor
    the sets already fetched. *)
Theorem provider_failure_propagates
    date_input days c s w start done y rest fetched w1 e p2 :
  days <> 0 ->
  normalize date_input None w = (Ok start, w) ->
  required_years start days = done ++ y :: rest ->
  for_year_in done (String c s) ∅ w = (Ok fetched, w1) ->
  get_holidays y (String c s) (provider w1) = (Raise e, p2) ->
  add_working_days date_input days (Some (String c s)) w
  = (Raise e,
     mkworld p2
       (calls w ++ ((fun y => (y, String c s)) <$> (done ++ [y])))
       (clock w)).
Proof.
  intros Hdays Hnorm Hyears Hdone Hfail.
  rewrite (add_working_days_nonzero _ _ _ _ start) by assumption.
  rewrite Hyears, get_holiday_set_present, for_year_in_app, Hdone.
  simpl. unfold bind, call_get_holidays. rewrite Hfail.
  apply for_year_in_ok_calls in Hdone as [-> ->].
  rewrite fmap_app, app_assoc. reflexivity.
Qed.

(** *** The result of the stepping *)

Lemma is_working_day_true holidays d :
  is_working_day holidays d = true <->
  0 <= date_weekday d < 5 /\ d ∉ holidays.
Proof.
  unfold is_working_day. rewrite andb_true_iff, Z.ltb_lt, bool_decide_eq_true.
  unfold date_weekday.
  pose proof (Z.mod_pos_bound (toordinal d + 6) 7 ltac:(lia)). intuition lia.
Qed.

Lemma date_eta (d : date) : fromordinal (toordinal d) = d.
Proof. destruct d. reflexivity. Qed.

Lemma datetime_eta (dt : datetime) r :
  date_of r = date_of dt -> time_of r = time_of dt -> r = dt.
Proof. destruct dt, r. simpl. intros -> ->. reflexivity. Qed.

(** C2: whenever [add_working_days] returns [r] for a non-zero offset,
    [r] is strictly later than the normalised start for a positive
    offset and strictly earlier for a negative one, it falls on Monday to
    Friday, and it is not in the resolved holiday set. The start itself
    is not counted: the working days counted are those strictly after
    the start up to [r] (strictly before the start down to [r]), and
    there are exactly [|days|] of them. *)
Theorem result_beyond_start date_input days country_code w r w' :
  days <> 0 ->
  add_working_days date_input days country_code w = (Ok r, w') ->
  exists start holidays,
    normalize date_input None w = (Ok start, w)
    /\ _get_holiday_set (required_years start days) country_code w
       = (Ok holidays, w')
    /\ (if days >? 0 then dt_ltb start r else dt_ltb r start) = true
    /\ 0 <= weekday r < 5
    /\ (date_of r ∉ holidays)
    /\ time_of r = time_of start
    /\ (if days >? 0
        then working_days_between holidays
               (toordinal (date_of start) + 1) (toordinal (date_of r))
        else working_days_between holidays
               (toordinal (date_of r)) (toordinal (date_of start) - 1))
       = Z.abs days.
Proof.
  intros Hdays Hrun.
  destruct (add_working_days_inv _ _ _ _ _ _ Hdays Hrun)
    as (start & holidays & Hnorm & Hset & Hloop).
  exists start, holidays. split; [exact Hnorm|]. split; [exact Hset|].
  unfold py_abs in Hloop. destruct (days >? 0) eqn:Hsign.
  - apply forward_sound in Hloop as (Ho & Ht & Hw & Hc); [|lia..].
    apply is_working_day_true in Hw as [Hwd Hnot].
    unfold dt_ltb, weekday. repeat split; try assumption; lia.
  - apply backward_sound in Hloop as (Ho & Ht & Hw & Hc); [|lia..].
    apply is_working_day_true in Hw as [Hwd Hnot].
    unfold dt_ltb, weekday. repeat split; try assumption; lia.
Qed.

(** *** There and back *)

Lemma for_year_in_no_holidays years c :
  (forall year c p, fst (get_holidays year c p) = Ok ∅) ->
  forall holidays (w : world PState),
  exists w', for_year_in years c holidays w = (Ok holidays, w').
Proof.
  intros Hnone. induction years as [|y years IH]; intros holidays w.
  - eexists. reflexivity.
  - simpl. unfold bind, call_get_holidays.
    specialize (Hnone y c (provider w)).
    destruct (get_holidays y c (provider w)) as [res p]. simpl in Hnone.
    subst res. rewrite (right_id_L ∅ (∪)). apply IH.
Qed.

Lemma resolved_empty years country_code (w : world PState) :
  no_holidays country_code ->
  exists w', _get_holiday_set years country_code w = (Ok ∅, w').
Proof.
  intros [Habsent | Hnone].
  - exists w. apply get_holiday_set_absent. assumption.
  - destruct country_code as [[|c s]|]; try (eexists; reflexivity).
    apply for_year_in_no_holidays. assumption.
Qed.

Lemma forward_and_back days days' holidays start n r :
  0 < days -> days' < 0 -> 0 < n ->
  1 <= toordinal (date_of start) ->
  is_working_day holidays (date_of start) = true ->
  while_days_remaining days holidays start n = Ok r ->
  while_days_remaining days' holidays r n = Ok start.
Proof.
  intros Hdays Hdays' Hn Hvalid Hstart Hloop.
  apply forward_sound in Hloop as (Ho & Ht & Hw & Hc); [|lia..].
  rewrite (backward_complete days' holidays r n (toordinal (date_of start)));
    try lia.
  - f_equal. apply datetime_eta; [apply date_eta | exact Ht].
  - rewrite date_eta. exact Hstart.
  - rewrite between_first by lia. rewrite between_last in Hc by lia.
    rewrite !working_date in *. rewrite Hstart. rewrite Hw in Hc. lia.
Qed.

Lemma backward_and_forth days days' holidays start n r :
  days < 0 -> 0 < days' -> 0 < n ->
  toordinal (date_of start) <= _MAXORDINAL ->
  is_working_day holidays (date_of start) = true ->
  while_days_remaining days holidays start n = Ok r ->
  while_days_remaining days' holidays r n = Ok start.
Proof.
  intros Hdays Hdays' Hn Hvalid Hstart Hloop.
  apply backward_sound in Hloop as (Ho & Ht & Hw & Hc); [|lia..].
  rewrite (forward_complete days' holidays r n (toordinal (date_of start)));
    try lia.
  - f_equal. apply datetime_eta; [apply date_eta | exact Ht].
  - rewrite date_eta. exact Hstart.
  - rewrite between_last by lia. rewrite between_first in Hc by lia.
    rewrite !working_date in *. rewrite Hstart. rewrite Hw in Hc. lia.
Qed.

(** C5, as the code has it: when no holidays are in play and the
    normalised start falls on Monday to Friday, adding [n] working days
    and then adding [-n] to the date returned gives the normalised start
    back, for every integer [n] for which the first call returns. *)
Theorem round_trip_from_weekday date_input n country_code w start r w' :
  normalize date_input None w = (Ok start, w) ->
  valid_date (date_of start) ->
  weekday start < 5 ->
  no_holidays country_code ->
  add_working_days date_input n country_code w = (Ok r, w') ->
  exists w'',
    add_working_days (InDatetime r) (- n) country_code w' = (Ok start, w'').
Proof.
  intros Hnorm [Hlo Hhi] Hweek Hnone Hrun.
  destruct (Z.eq_dec n 0) as [->|Hn].
  - exists w'. unfold add_working_days in Hrun. simpl in Hrun.
    rewrite Hnorm in Hrun. injection Hrun as <- <-. reflexivity.
  - destruct (add_working_days_inv _ _ _ _ _ _ Hn Hrun)
      as (start' & holidays & Hnorm' & Hset & Hloop).
    rewrite Hnorm in Hnorm'. injection Hnorm' as <-.
    destruct (resolved_empty (required_years start n) country_code w Hnone)
      as [w1 Hset1].
    rewrite Hset1 in Hset. injection Hset as <- <-.
    destruct (resolved_empty (required_years r (- n)) country_code w1 Hnone)
      as [w2 Hset2].
    exists w2.
    rewrite (add_working_days_nonzero _ _ _ _ r) by (lia || reflexivity).
    rewrite Hset2. f_equal.
    assert (is_working_day ∅ (date_of start) = true) as Hstart.
    { apply is_working_day_true. split; [|set_solver].
      unfold weekday, date_weekday in *.
      pose proof (Z.mod_pos_bound (toordinal (date_of start) + 6) 7
                    ltac:(lia)). lia. }
    unfold py_abs in *. rewrite Z.abs_opp.
    destruct (Z_lt_le_dec 0 n).
    + eapply forward_and_back; try eassumption; lia.
    + eapply backward_and_forth; try eassumption; lia.
Qed.

(** C9, as the code has it: the stepping loop ends for every holiday
    set, every start and every offset, either with a date or with the
    [OverflowError] of a step that leaves the range of [date]
    (0001-01-01 to 9999-12-31). From a valid start it ends with a date
    exactly when the calendar still holds [|days|] working days in the
    direction of the stepping. *)
Theorem stepping_terminates days holidays start :
  let run := while_days_remaining days holidays start (py_abs days) in
  ((exists r, run = Ok r) \/ (exists msg, run = Raise (OverflowError msg)))
  /\ (days = 0 -> run = Ok start)
  /\ (valid_date (date_of start) -> 0 < days ->
      ((exists r, run = Ok r) <->
       days <= working_days_between holidays
                 (toordinal (date_of start) + 1) _MAXORDINAL))
  /\ (valid_date (date_of start) -> days < 0 ->
      ((exists r, run = Ok r) <->
       - days <= working_days_between holidays
                   1 (toordinal (date_of start) - 1))).
Proof.
  intros run. subst run. unfold py_abs.
  split; [apply while_total|].
  split; [intros ->; apply while_done; simpl; lia|].
  split; intros [Hlo Hhi] Hdays; split.
  - intros [r Hloop].
    apply forward_sound in Hloop as (Ho & _ & _ & Hc); [|lia..].
    pose proof (between_mono holidays (toordinal (date_of start) + 1)
                  (toordinal (date_of r)) _MAXORDINAL ltac:(lia)). lia.
  - intros Hcount. apply forward_enough; lia.
  - intros [r Hloop].
    apply backward_sound in Hloop as (Ho & _ & _ & Hc); [|lia..].
    pose proof (between_mono_lo holidays 1 (toordinal (date_of r))
                  (toordinal (date_of start) - 1) ltac:(lia)). lia.
  - intros Hcount. apply backward_enough; lia.
Qed.

End Properties.

(** ** The claims on concrete calls *)

Lemma run_without_country {PState} {HP : HolidayProvider PState}
    config strptime date_input days start r (w : world PState) :
  days <> 0 ->
  normalize config strptime date_input None w = (Ok start, w) ->
  while_days_remaining days ∅ start (py_abs days) = Ok r ->
  add_working_days config strptime date_input days None w = (Ok r, w).
Proof.
  intros Hdays Hnorm Hloop.
  rewrite (add_working_days_nonzero _ _ _ _ _ _ start) by assumption.
  simpl. rewrite Hloop. reflexivity.
Defined.

Lemma run_with_country {PState} {HP : HolidayProvider PState}
    config strptime date_input days cc start holidays r (w w' : world PState) :
  days <> 0 ->
  normalize config strptime date_input None w = (Ok start, w) ->
  _get_holiday_set (required_years start days) cc w = (Ok holidays, w') ->
  while_days_remaining days holidays start (py_abs days) = Ok r ->
  add_working_days config strptime date_input days cc w = (Ok r, w').
Proof.
  intros Hdays Hnorm Hset Hloop.
  rewrite (add_working_days_nonzero _ _ _ _ _ _ start) by assumption.
  rewrite Hset, Hloop. reflexivity.
Defined.

(** C1 fails as stated: for an offset of 250 from 2024 the provider is
    asked for 2024, 2025 and 2026, and not for the four years 2024 to
    2027 of the span the claim describes. *)
Lemma year_span_250_counterexample :
  let w := snd (add_working_days (HP:=mock_provider ∅) config0 strptime0
                  (InDatetime monday) 250 (Some "PL") w0) in
  year monday = 2024
  /\ fst <$> calls w = [2024; 2025; 2026]
  /\ spec_year_span (year monday) 250 = [2024; 2025; 2026; 2027]
  /\ fst <$> calls w <> spec_year_span (year monday) 250.
Proof.
  assert (snd (add_working_days (HP:=mock_provider ∅) config0 strptime0
                 (InDatetime monday) 250 (Some "PL") w0)
          = asked [2024; 2025; 2026] "PL") as ->.
  { rewrite (add_working_days_world _ _ _ _ _ _ monday)
      by (lia || reflexivity).
    vm_compute. reflexivity. }
  repeat split; try (vm_compute; reflexivity). vm_compute. discriminate.
Qed.

Lemma required_years_forward_witness :
  0 < 250
  /\ calls (snd (add_working_days (HP:=mock_provider ∅) config0 strptime0
                   (InDatetime monday) 250 (Some "PL") w0))
     = [(2024, "PL"); (2025, "PL"); (2026, "PL")].
Proof.
  split; [lia|].
  assert (_get_holiday_set (HP:=mock_provider ∅) (required_years monday 250)
            (Some "PL") w0
          = (Ok ∅, asked [2024; 2025; 2026] "PL")) as Hset
    by (vm_compute; reflexivity).
  destruct (required_years_forward (HP:=mock_provider ∅) config0 strptime0
              (InDatetime monday) 250 "P"%char "L" w0 monday ∅ _
              ltac:(lia) eq_refl Hset)
    as (_ & _ & _ & Hcalls & H250).
  rewrite Hcalls, (H250 eq_refl). reflexivity.
Defined.

Lemma friday_plus_one :
  add_working_days (HP:=mock_provider holiday_monday) config0 strptime0
    (InDatetime friday) 1 (Some "PL") w0
  = (Ok next_tuesday, asked [2024; 2025] "PL").
Proof.
  apply (run_with_country _ _ _ _ _ friday holiday_monday);
    [lia | reflexivity | vm_compute; reflexivity |].
  unfold friday. run_while. reflexivity.
Defined.

Lemma result_beyond_start_witness :
  1 <> 0
  /\ exists start holidays,
       normalize (PState:=unit) config0 strptime0
         (InDatetime friday) None w0 = (Ok start, w0)
       /\ _get_holiday_set (HP:=mock_provider holiday_monday)
            (required_years start 1) (Some "PL") w0
          = (Ok holidays, asked [2024; 2025] "PL")
       /\ (if 1 >? 0 then dt_ltb start next_tuesday
           else dt_ltb next_tuesday start) = true
       /\ 0 <= weekday next_tuesday < 5
       /\ (date_of next_tuesday ∉ holidays)
       /\ time_of next_tuesday = time_of start
       /\ (if 1 >? 0
           then working_days_between holidays
                  (toordinal (date_of start) + 1)
                  (toordinal (date_of next_tuesday))
           else working_days_between holidays
                  (toordinal (date_of next_tuesday))
                  (toordinal (date_of start) - 1))
          = Z.abs 1.
Proof.
  split; [lia|].
  exact (result_beyond_start (HP:=mock_provider holiday_monday)
           config0 strptime0 (InDatetime friday) 1 (Some "PL") w0
           next_tuesday _ ltac:(lia) friday_plus_one).
Defined.

Lemma absent_country_code_witness :
  5 <> 0
  /\ snd (add_working_days (HP:=mock_provider holiday_monday) config0
            strptime0 (InStr "01.01.2024") 5 None w0) = w0.
Proof.
  split; [lia|].
  exact (proj1 (proj2
    (absent_country_code (HP:=mock_provider holiday_monday) config0
       strptime0 (InStr "01.01.2024") 5 None w0
       ltac:(lia) (or_introl eq_refl)))).
Defined.

(** C5 fails as stated: from a Saturday, one working day forward is the
    Monday, and one working day back from that Monday is the Friday, not
    the Saturday. *)
Lemma round_trip_saturday_counterexample :
  weekday saturday = 5
  /\ add_working_days (HP:=mock_provider ∅) config0 strptime0
       (InDatetime saturday) 1 None w0 = (Ok next_monday, w0)
  /\ add_working_days (HP:=mock_provider ∅) config0 strptime0
       (InDatetime next_monday) (-1) None w0 = (Ok friday, w0)
  /\ friday <> saturday.
Proof.
  split; [reflexivity|].
  split; [|split; [|discriminate]].
  - apply (run_without_country _ _ _ _ saturday); [lia | reflexivity |].
    unfold saturday. run_while. reflexivity.
  - apply (run_without_country _ _ _ _ next_monday); [lia | reflexivity |].
    unfold next_monday. run_while. reflexivity.
Qed.

Lemma monday_plus_five :
  add_working_days (HP:=mock_provider ∅) config0 strptime0
    (InStr "01.01.2024") 5 None w0 = (Ok next_monday, w0).
Proof.
  apply (run_without_country _ _ _ _ monday); [lia | reflexivity |].
  unfold monday. run_while. reflexivity.
Defined.

Lemma round_trip_from_weekday_witness :
  weekday monday < 5
  /\ exists w,
       add_working_days (HP:=mock_provider ∅) config0 strptime0
         (InDatetime next_monday) (- 5) None w0 = (Ok monday, w).
Proof.
  split; [reflexivity|].
  apply (round_trip_from_weekday (HP:=mock_provider ∅) config0 strptime0
           (InStr "01.01.2024") 5 None w0 monday next_monday w0).
  - reflexivity.
  - split; vm_compute; discriminate.
  - reflexivity.
  - left. reflexivity.
  - exact monday_plus_five.
Defined.

Lemma provider_failure_propagates_witness :
  add_working_days (HP:=failing_provider 2025 http_error) config0 strptime0
    (InDatetime monday) 5 (Some "PL") w0
  = (Raise http_error, asked [2024; 2025] "PL").
Proof.
  apply (provider_failure_propagates (HP:=failing_provider 2025 http_error)
           config0 strptime0 (InDatetime monday) 5 "P"%char "L" w0 monday
           [2024] 2025 [] ∅ (asked [2024] "PL") http_error tt).
  - lia.
  - reflexivity.
  - vm_compute. reflexivity.
  - vm_compute. reflexivity.
  - reflexivity.
Defined.

(** C9 fails as stated: one working day forward from 9999-12-31, the
    last day a [date] can hold, ends in an [OverflowError], not in a
    date. *)
Lemma stepping_overflow_counterexample :
  valid_date (date_of last_day)
  /\ add_working_days (HP:=mock_provider ∅) config0 strptime0
       (InDatetime last_day) 1 None w0
     = (Raise (OverflowError "date value out of range"), w0)
  /\ ~ exists r,
         while_days_remaining 1 ∅ last_day (py_abs 1) = Ok r.
Proof.
  assert (while_days_remaining 1 ∅ last_day (py_abs 1)
          = Raise (OverflowError "date value out of range")) as Hloop.
  { unfold last_day. run_while. reflexivity. }
  split; [split; vm_compute; discriminate|].
  split.
  - rewrite (add_working_days_nonzero _ _ _ _ _ _ last_day)
      by (lia || reflexivity).
    simpl. rewrite Hloop. reflexivity.
  - intros [r Hr]. rewrite Hloop in Hr. discriminate.
Qed.

Lemma required_years_backward_witness :
  -250 < 0
  /\ add_working_days (HP:=mock_provider holiday_monday) config0 strptime0
       (InDatetime monday) (-250) (Some "PL") w0
     = (while_days_remaining (-250) ∅ monday (py_abs (-250)), w0).
Proof.
  split; [lia|].
  destruct (required_years_backward (HP:=mock_provider holiday_monday)
              config0 strptime0 (InDatetime monday) (-250) (Some "PL") w0
              monday ltac:(lia) eq_refl)
    as (_ & _ & Hnone & _).
  exact (proj2 (proj2 (Hnone ltac:(lia)))).
Defined.

(** ** Further properties of the stepping *)

Lemma between_split holidays lo mid hi :
  lo <= mid + 1 -> mid <= hi ->
  working_days_between holidays lo hi
  = working_days_between holidays lo mid
    + working_days_between holidays (mid + 1) hi.
Proof.
  intros Hlo H. replace hi with (mid + Z.of_nat (Z.to_nat (hi - mid))) by lia.
  induction (Z.to_nat (hi - mid)) as [|n IH].
  - simpl. rewrite Z.add_0_r. rewrite (between_empty _ (mid + 1)) by lia. lia.
  - rewrite (between_last _ lo), (between_last _ (mid + 1)) by lia.
    replace (mid + Z.of_nat (S n) - 1) with (mid + Z.of_nat n) by lia. lia.
Qed.


Lemma between_subset holidays holidays' lo hi :
  holidays ⊆ holidays' ->
  working_days_between holidays' lo hi <= working_days_between holidays lo hi.
Proof.
  intros Hsub.
  destruct (Z_lt_le_dec hi lo) as [Hlt|Hle];
    [rewrite !between_empty by lia; lia|].
  replace hi with (lo + Z.of_nat (Z.to_nat (hi - lo))) by lia.
  assert (forall o, working holidays' o <= working holidays o) as Hw.
  { intros o. unfold working, is_working_day.
    destruct (date_weekday (fromordinal o) <? 5); simpl; [|lia].
    repeat case_bool_decide; try lia. set_solver. }
  induction (Z.to_nat (hi - lo)) as [|n IH].
  - simpl. rewrite Z.add_0_r.
    rewrite !(between_first _ lo lo), !between_empty by lia.
    specialize (Hw lo). lia.
  - rewrite !(between_last _ lo (lo + Z.of_nat (S n))) by lia.
    replace (lo + Z.of_nat (S n) - 1) with (lo + Z.of_nat n) by lia.
    specialize (Hw (lo + Z.of_nat (S n))). lia.
Qed.

(** The loop sees the holiday set only through [is_working_day]. *)
Lemma while_ext days holidays holidays' current days_remaining :
  (forall d, is_working_day holidays d = is_working_day holidays' d) ->
  while_days_remaining days holidays current days_remaining
  = while_days_remaining days holidays' current days_remaining.
Proof.
  intros Hsame.
  funelim (while_days_remaining days holidays current days_remaining);
    forget_inspect.
  - rewrite while_done by lia. reflexivity.
  - rewrite (while_next days holidays' current) with (next := next)
      by (assumption || lia).
    rewrite <- Hsame. apply H. assumption.
  - rewrite (while_overflow days holidays' current) with (e := e)
      by (assumption || lia).
    reflexivity.
Qed.

(** Holidays that fall on a Saturday or a Sunday change nothing: the
    loop gives the same outcome with and without them. *)
Theorem weekend_holidays_ignored days holidays extra start days_remaining :
  (forall d, d ∈ extra -> 5 <= date_weekday d) ->
  while_days_remaining days (holidays ∪ extra) start days_remaining
  = while_days_remaining days holidays start days_remaining.
Proof.
  intros Hweekend. apply while_ext. intros d. unfold is_working_day.
  destruct (date_weekday d <? 5) eqn:Hwd; [|reflexivity]. simpl.
  apply bool_decide_ext. split; [set_solver|].
  intros Hnot [Hin|Hin]%elem_of_union; [contradiction|].
  specialize (Hweekend d Hin). lia.
Qed.


(** More holidays never bring the result closer: with a larger holiday
    set the date reached is the same or further away from the start, in
    the direction of the stepping. *)
Theorem holidays_delay days holidays holidays' start days_remaining r r' :
  days <> 0 -> 0 < days_remaining ->
  holidays ⊆ holidays' ->
  while_days_remaining days holidays start days_remaining = Ok r ->
  while_days_remaining days holidays' start days_remaining = Ok r' ->
  if days >? 0
  then toordinal (date_of r) <= toordinal (date_of r')
  else toordinal (date_of r') <= toordinal (date_of r).
Proof.
  intros Hdays Hrem Hsub Hloop Hloop'.
  destruct (days >? 0) eqn:Hsign.
  - apply forward_sound in Hloop as (Ho & _ & Hwr & Hc); [|lia..].
    apply forward_sound in Hloop' as (Ho' & _ & _ & Hc'); [|lia..].
    destruct (Z_le_gt_dec (toordinal (date_of r)) (toordinal (date_of r')))
      as [|Hgt]; [assumption|exfalso].
    rewrite between_last in Hc by lia.
    rewrite working_date, Hwr in Hc.
    pose proof (between_subset holidays holidays'
                  (toordinal (date_of start) + 1) (toordinal (date_of r'))
                  Hsub).
    pose proof (between_mono holidays (toordinal (date_of start) + 1)
                  (toordinal (date_of r')) (toordinal (date_of r) - 1)
                  ltac:(lia)).
    lia.
  - apply backward_sound in Hloop as (Ho & _ & Hwr & Hc); [|lia..].
    apply backward_sound in Hloop' as (Ho' & _ & _ & Hc'); [|lia..].
    destruct (Z_le_gt_dec (toordinal (date_of r')) (toordinal (date_of r)))
      as [|Hgt]; [assumption|exfalso].
    rewrite between_first in Hc by lia.
    rewrite working_date, Hwr in Hc.
    pose proof (between_subset holidays holidays'
                  (toordinal (date_of r')) (toordinal (date_of start) - 1)
                  Hsub).
    pose proof (between_mono_lo holidays (toordinal (date_of r) + 1)
                  (toordinal (date_of r')) (toordinal (date_of start) - 1)
                  ltac:(lia)).
    lia.
Qed.

Lemma working_empty o : working ∅ o = if (o + 6) mod 7 <? 5 then 1 else 0.
Proof.
  unfold working, is_working_day.
  rewrite bool_decide_eq_true_2 by set_solver. rewrite andb_true_r.
  reflexivity.
Qed.

(** Seven days in a row hold five days from Monday to Friday. *)
Lemma week_count lo : working_days_between ∅ lo (lo + 6) = 5.
Proof.
  do 6 (rewrite between_first by lia). rewrite between_first by lia.
  rewrite between_empty by lia. rewrite !working_empty.
  repeat match goal with
         | |- context [if ?b then _ else _] => destruct b eqn:?
         end; Z.div_mod_to_equations; lia.
Qed.

Lemma weeks_count lo k :
  0 <= k -> working_days_between ∅ lo (lo + 7 * k - 1) = 5 * k.
Proof.
  intros Hk. replace k with (Z.of_nat (Z.to_nat k)) by lia.
  induction (Z.to_nat k) as [|n IH].
  - simpl. rewrite between_empty by lia. reflexivity.
  - rewrite (between_split _ lo (lo + 7 * Z.of_nat n - 1)) by lia.
    rewrite IH.
    replace (lo + 7 * Z.of_nat n - 1 + 1) with (lo + 7 * Z.of_nat n) by lia.
    replace (lo + 7 * Z.of_nat (S n) - 1) with (lo + 7 * Z.of_nat n + 6)
      by lia.
    rewrite week_count. lia.
Qed.

Section MoreProperties.

Context {PState : Type} {HP : HolidayProvider PState}.
Variable config : DateConfig.
Variable strptime : string -> string -> option datetime.

Local Abbreviation normalize := (normalize (PState:=PState) config strptime).
Local Abbreviation add_working_days := (add_working_days config strptime).

Lemma add_working_days_without w date_input days country_code start :
  days <> 0 -> truthy country_code = false ->
  normalize date_input None w = (Ok start, w) ->
  add_working_days date_input days country_code w
  = (while_days_remaining days ∅ start (py_abs days), w).
Proof.
  intros Hdays Hcc Hnorm.
  rewrite (add_working_days_nonzero _ _ _ _ _ _ start) by assumption.
  rewrite get_holiday_set_absent by assumption. reflexivity.
Qed.

(** Without a country code two steps in the same direction add up:
    going [a] working days and from there [b] more is going [a + b]. *)
Theorem add_working_days_additive
    date_input a b country_code w start r1 r2 :
  truthy country_code = false ->
  (0 < a /\ 0 < b) \/ (a < 0 /\ b < 0) ->
  normalize date_input None w = (Ok start, w) ->
  valid_date (date_of start) ->
  add_working_days date_input a country_code w = (Ok r1, w) ->
  add_working_days (InDatetime r1) b country_code w = (Ok r2, w) ->
  add_working_days date_input (a + b) country_code w = (Ok r2, w).
Proof.
  intros Hcc Hsign Hnorm [Hlo Hhi] Hfirst Hsecond.
  rewrite (add_working_days_without w _ _ _ start) in Hfirst
    by (assumption || lia).
  rewrite (add_working_days_without w _ _ _ r1) in Hsecond
    by (assumption || reflexivity || lia).
  rewrite (add_working_days_without w _ _ _ start) by (assumption || lia).
  injection Hfirst as Hfirst. injection Hsecond as Hsecond.
  f_equal. unfold py_abs in *.
  destruct Hsign as [[Ha Hb]|[Ha Hb]].
  - apply forward_sound in Hfirst as (Ho1 & Ht1 & _ & Hc1); [|lia..].
    apply forward_sound in Hsecond as (Ho2 & Ht2 & Hw2 & Hc2); [|lia..].
    rewrite (forward_complete (a + b) ∅ start (Z.abs (a + b))
               (toordinal (date_of r2))); try lia.
    + f_equal. apply datetime_eta; [apply date_eta | simpl; congruence].
    + rewrite date_eta. exact Hw2.
    + rewrite (between_split _ _ (toordinal (date_of r1))) by lia. lia.
  - apply backward_sound in Hfirst as (Ho1 & Ht1 & _ & Hc1); [|lia..].
    apply backward_sound in Hsecond as (Ho2 & Ht2 & Hw2 & Hc2); [|lia..].
    rewrite (backward_complete (a + b) ∅ start (Z.abs (a + b))
               (toordinal (date_of r2))); try lia.
    + f_equal. apply datetime_eta; [apply date_eta | simpl; congruence].
    + rewrite date_eta. exact Hw2.
    + rewrite (between_split _ _ (toordinal (date_of r1) - 1)) by lia.
      replace (toordinal (date_of r1) - 1 + 1) with (toordinal (date_of r1))
        by lia.
      lia.
Qed.

(** Without a country code, five working days from a Monday-to-Friday
    start are one calendar week: an offset of [5 * k] moves the date by
    [7 * k] days, forward or backward, as long as that day exists. *)
Theorem five_working_days_one_week date_input k country_code w start :
  truthy country_code = false ->
  k <> 0 ->
  normalize date_input None w = (Ok start, w) ->
  valid_date (date_of start) ->
  weekday start < 5 ->
  1 <= toordinal (date_of start) + 7 * k <= _MAXORDINAL ->
  add_working_days date_input (5 * k) country_code w
  = (Ok (combine (fromordinal (toordinal (date_of start) + 7 * k))
                 (time_of start)), w).
Proof.
  intros Hcc Hk Hnorm [Hlo Hhi] Hweek Hroom.
  rewrite (add_working_days_without w _ _ _ start) by (assumption || lia).
  f_equal. unfold py_abs.
  set (o := toordinal (date_of start)) in *.
  assert (is_working_day ∅ (fromordinal (o + 7 * k)) = true) as Hw.
  { rewrite is_working_day_empty. unfold date_weekday. simpl.
    unfold weekday, date_weekday in Hweek. fold o in Hweek.
    apply Z.ltb_lt. Z.div_mod_to_equations. lia. }
  assert (working ∅ o = 1) as Hstart.
  { rewrite working_empty. unfold weekday, date_weekday in Hweek.
    fold o in Hweek. destruct (_ <? 5) eqn:E; lia. }
  destruct (Z_lt_le_dec 0 k) as [Hpos|Hneg].
  - apply forward_complete; try assumption; try lia.
    fold o. pose proof (weeks_count (o + 1) k ltac:(lia)) as Hcount.
    replace (o + 1 + 7 * k - 1) with (o + 7 * k) in Hcount by lia. lia.
  - apply backward_complete; try assumption; try lia.
    fold o. pose proof (weeks_count (o + 7 * k) (- k) ltac:(lia)) as Hcount.
    replace (o + 7 * k + 7 * - k - 1) with (o - 1) in Hcount by lia. lia.
Qed.

(** An input that [normalize] rejects is reported before anything else
    happens: [add_working_days] raises the same exception, for every
    offset and every country code, and the provider is not called. *)
Theorem normalize_failure_first date_input days country_code w e :
  fst (normalize date_input None w) = Raise e ->
  add_working_days date_input days country_code w = (Raise e, w).
Proof.
  intros Hfail.
  pose proof (normalize_world config strptime date_input None w) as Hw.
  destruct (normalize date_input None w) as [res w1] eqn:Hnorm.
  simpl in Hfail, Hw. subst res w1.
  destruct (Z.eq_dec days 0) as [->|Hdays].
  - unfold add_working_days. simpl. exact Hnorm.
  - apply add_working_days_raise; assumption.
Qed.

(** *** What the provider is asked *)

Lemma for_year_in_calls_take years c :
  forall holidays (w : world PState),
  exists n,
    calls (snd (for_year_in years c holidays w))
    = calls w ++ ((fun y => (y, c)) <$> take n years)
    /\ clock (snd (for_year_in years c holidays w)) = clock w.
Proof.
  induction years as [|y years IH]; intros holidays w.
  - exists O. simpl. rewrite app_nil_r. auto.
  - simpl. unfold bind.
    pose proof (call_get_holidays_calls y c w) as [Hc Hk].
    destruct (call_get_holidays y c w) as [[one|e] w1]; simpl in Hc, Hk.
    + destruct (IH (holidays ∪ one) w1) as (n & Hn & Hclock).
      exists (S n). rewrite Hn, Hclock, Hc, Hk. simpl.
      rewrite <- app_assoc. auto.
    + exists 1%nat. simpl. rewrite ?take_0. auto.
Qed.

(** Whatever happens, the calls [add_working_days] makes are the first
    so many years of [range(dt.year, dt.year + days // 200 + 2)], in
    order and with the country code given: no other year, no other
    country, no year twice, and none at all for a zero offset, an absent
    or empty country code, or an input that does not normalise. *)
Theorem provider_calls_limited date_input days country_code w :
  let w' := snd (add_working_days date_input days country_code w) in
  clock w' = clock w
  /\ (calls w' = calls w
      \/ exists start c n,
           days <> 0
           /\ country_code = Some c /\ truthy country_code = true
           /\ normalize date_input None w = (Ok start, w)
           /\ calls w'
              = calls w
                ++ ((fun y => (y, c)) <$> take n (required_years start days))).
Proof.
  intros w'. subst w'.
  destruct (Z.eq_dec days 0) as [->|Hdays].
  { change (add_working_days date_input 0 country_code w)
      with (normalize date_input None w).
    rewrite normalize_world. auto. }
  pose proof (normalize_world config strptime date_input None w) as Hw.
  destruct (normalize date_input None w) as [[start|e] w1] eqn:Hnorm;
    simpl in Hw; subst w1.
  - rewrite (add_working_days_world _ _ _ _ _ _ start) by assumption.
    destruct country_code as [[|c s]|];
      [split; [reflexivity | left; reflexivity] |
       | split; [reflexivity | left; reflexivity]].
    rewrite get_holiday_set_present.
    destruct (for_year_in_calls_take (required_years start days)
                (String c s) ∅ w) as (n & Hn & Hclock).
    split; [exact Hclock|]. right. exists start, (String c s), n.
    repeat split; assumption.
  - rewrite (add_working_days_raise _ _ _ _ _ _ _ _ Hdays Hnorm). auto.
Qed.

Lemma for_year_in_pure answer years c :
  (forall year cc p, get_holidays year cc p = (Ok (answer year cc), p)) ->
  forall holidays (w : world PState),
  exists fetched w',
    for_year_in years c holidays w = (Ok fetched, w')
    /\ provider w' = provider w
    /\ forall d, d ∈ fetched <->
                 d ∈ holidays \/ exists year, year ∈ years /\ d ∈ answer year c.
Proof.
  intros Hpure. induction years as [|y years IH]; intros holidays w.
  - exists holidays, w. split; [reflexivity|]. split; [reflexivity|].
    intros d. split; [auto|]. intros [H|(year & Hin & _)]; [exact H|].
    inversion Hin.
  - simpl. unfold bind, call_get_holidays. rewrite Hpure.
    destruct (IH (holidays ∪ answer y c)
                (mkworld (provider w) (calls w ++ [(y, c)]) (clock w)))
      as (fetched & w' & Hrun & Hprov & Hmem).
    exists fetched, w'. split; [exact Hrun|]. split; [exact Hprov|].
    intros d. rewrite Hmem, elem_of_union. split.
    + intros [[H|H]|(year & Hin & H)]; [auto| |].
      * right. exists y. split; [left|exact H].
      * right. exists year. split; [right; exact Hin|exact H].
    + intros [H|(year & Hin & H)]; [auto|].
      apply elem_of_cons in Hin as [->|Hin]; [auto|].
      right. exists year. auto.
Qed.

(** With a provider that answers every call and keeps no state, the set
    [_get_holiday_set] returns for a present country code is the union
    of the answers for the years asked: a date is in it exactly when the
    answer for one of the years holds it. *)
Theorem resolved_set_is_union answer years c s (w : world PState) :
  (forall year cc p, get_holidays year cc p = (Ok (answer year cc), p)) ->
  exists holidays w',
    _get_holiday_set years (Some (String c s)) w = (Ok holidays, w')
    /\ forall d, d ∈ holidays <->
                 exists year, year ∈ years /\ d ∈ answer year (String c s).
Proof.
  intros Hpure.
  destruct (for_year_in_pure answer years (String c s) Hpure ∅ w)
    as (fetched & w' & Hrun & _ & Hmem).
  exists fetched, w'. split; [exact Hrun|].
  intros d. split.
  - intros Hd. apply Hmem in Hd as [Hd|Hd]; [|exact Hd].
    apply elem_of_empty in Hd. contradiction.
  - intros Hd. apply Hmem. right. exact Hd.
Qed.

(** *** Weeks *)

Lemma WEEK_DAYS_range week_day k :
  WEEK_DAYS !! week_day = Some k -> 0 <= k <= 6.
Proof.
  intros H. apply elem_of_list_to_map_2 in H.
  repeat (apply elem_of_cons in H as [H|H]; [injection H as _ ->; lia|]).
  inversion H.
Qed.

Lemma first_day_of_week_run date_input (w : world PState) start :
  normalize date_input None w = (Ok start, w) ->
  first_day_of_week config strptime date_input w
  = (add_days start (- weekday start), w).
Proof. intros H. unfold first_day_of_week, bind, lift. rewrite H. reflexivity. Qed.

Lemma last_day_of_week_run date_input (w : world PState) start :
  normalize date_input None w = (Ok start, w) ->
  last_day_of_week config strptime date_input w
  = (add_days start (6 - weekday start), w).
Proof. intros H. unfold last_day_of_week, bind, lift. rewrite H. reflexivity. Qed.

Lemma weekday_range dt : 0 <= weekday dt <= 6.
Proof.
  unfold weekday, date_weekday.
  pose proof (Z.mod_pos_bound (toordinal (date_of dt) + 6) 7 ltac:(lia)). lia.
Qed.

Lemma first_day_of_week_ok date_input (w : world PState) start :
  normalize date_input None w = (Ok start, w) ->
  valid_date (date_of start) ->
  exists monday_of,
    first_day_of_week config strptime date_input w = (Ok monday_of, w)
    /\ weekday monday_of = 0
    /\ toordinal (date_of monday_of)
       = toordinal (date_of start) - weekday start
    /\ toordinal (date_of start) - 6 <= toordinal (date_of monday_of)
       <= toordinal (date_of start)
    /\ time_of monday_of = time_of start
    /\ valid_date (date_of monday_of).
Proof.
  intros Hnorm [Hlo Hhi].
  rewrite (first_day_of_week_run _ _ _ Hnorm).
  pose proof (weekday_range start) as Hwd.
  assert (1 <= toordinal (date_of start) - weekday start) as Hroom.
  { unfold weekday, date_weekday in *. Z.div_mod_to_equations. lia. }
  destruct (add_days start (- weekday start)) as [r|e] eqn:Hadd.
  - apply add_days_ok in Hadd as [-> Hrange]. eexists. split; [reflexivity|].
    unfold valid_date, weekday, date_weekday in *. simpl.
    repeat split; try lia. Z.div_mod_to_equations. lia.
  - apply add_days_raise in Hadd as [Hout _]. lia.
Qed.

(** [first_day_of_week] never fails on a date that normalises: day 1 of
    the calendar is a Monday, so the Monday of a week always exists. The
    result is a Monday, at most six days before the input, with the
    input's time of day. *)
Theorem first_day_of_week_monday date_input (w : world PState) start :
  normalize date_input None w = (Ok start, w) ->
  valid_date (date_of start) ->
  exists monday_of,
    first_day_of_week config strptime date_input w = (Ok monday_of, w)
    /\ weekday monday_of = 0
    /\ toordinal (date_of monday_of)
       = toordinal (date_of start) - weekday start
    /\ toordinal (date_of start) - 6 <= toordinal (date_of monday_of)
       <= toordinal (date_of start)
    /\ time_of monday_of = time_of start
    /\ valid_date (date_of monday_of).
Proof. apply first_day_of_week_ok. Qed.

(** [last_day_of_week] gives the Sunday of the input's week, at most six
    days after the input. It fails with [OverflowError] exactly for the
    last five days [date] can hold, 9999-12-27 to 9999-12-31, whose
    Sunday lies beyond the calendar. *)
Theorem last_day_of_week_sunday date_input (w : world PState) start :
  normalize date_input None w = (Ok start, w) ->
  valid_date (date_of start) ->
  (toordinal (date_of start) <= _MAXORDINAL - 5 ->
   exists sunday_of,
     last_day_of_week config strptime date_input w = (Ok sunday_of, w)
     /\ weekday sunday_of = 6
     /\ toordinal (date_of start) <= toordinal (date_of sunday_of)
        <= toordinal (date_of start) + 6
     /\ time_of sunday_of = time_of start)
  /\ (_MAXORDINAL - 5 < toordinal (date_of start) ->
      exists msg,
        last_day_of_week config strptime date_input w
        = (Raise (OverflowError msg), w)).
Proof.
  intros Hnorm [Hlo Hhi].
  rewrite (last_day_of_week_run _ _ _ Hnorm).
  pose proof (weekday_range start) as Hwd.
  split; intros Hedge.
  - assert (toordinal (date_of start) + (6 - weekday start) <= _MAXORDINAL)
      as Hroom.
    { unfold weekday, date_weekday, _MAXORDINAL in *.
      Z.div_mod_to_equations. lia. }
    destruct (add_days start (6 - weekday start)) as [r|e] eqn:Hadd.
    + apply add_days_ok in Hadd as [-> Hrange]. eexists.
      split; [reflexivity|].
      unfold weekday, date_weekday in *. simpl.
      repeat split; try lia. Z.div_mod_to_equations. lia.
    + apply add_days_raise in Hadd as [Hout _]. lia.
  - assert (_MAXORDINAL < toordinal (date_of start) + (6 - weekday start))
      as Hroom.
    { unfold weekday, date_weekday, _MAXORDINAL in *.
      Z.div_mod_to_equations. lia. }
    destruct (add_days start (6 - weekday start)) as [r|e] eqn:Hadd.
    + apply add_days_ok in Hadd as [_ Hrange]. lia.
    + apply add_days_raise in Hadd as [_ [msg ->]]. eauto.
Qed.

Lemma first_day_of_same_week date_input (w : world PState)
    start monday_of other :
  normalize date_input None w = (Ok start, w) ->
  valid_date (date_of start) ->
  first_day_of_week config strptime date_input w = (Ok monday_of, w) ->
  toordinal (date_of monday_of) <= toordinal (date_of other)
  <= toordinal (date_of monday_of) + 6 ->
  first_day_of_week config strptime (InDatetime other) w
  = (Ok (combine (date_of monday_of) (time_of other)), w).
Proof.
  intros Hnorm Hvalid Hfirst Hweek.
  destruct (first_day_of_week_ok _ _ _ Hnorm Hvalid)
    as (m & Hrun & Hmon & _ & _ & _ & [Hlo Hhi]).
  rewrite Hrun in Hfirst. injection Hfirst as ->.
  rewrite (first_day_of_week_run (InDatetime other) w other eq_refl).
  f_equal.
  assert (weekday other
          = toordinal (date_of other) - toordinal (date_of monday_of))
    as Hwd.
  { unfold weekday, date_weekday in *. Z.div_mod_to_equations. lia. }
  apply add_days_ok. rewrite Hwd.
  replace (toordinal (date_of other)
           + - (toordinal (date_of other) - toordinal (date_of monday_of)))
    with (toordinal (date_of monday_of)) by lia.
  rewrite date_eta. split; [reflexivity|lia].
Qed.

(** Every moment from the Monday of a week to its Sunday has that Monday
    as its first day of the week; in particular [first_day_of_week]
    applied to its own result changes nothing. *)
Theorem first_day_of_week_same_week date_input (w : world PState)
    start monday_of other :
  normalize date_input None w = (Ok start, w) ->
  valid_date (date_of start) ->
  first_day_of_week config strptime date_input w = (Ok monday_of, w) ->
  toordinal (date_of monday_of) <= toordinal (date_of other)
  <= toordinal (date_of monday_of) + 6 ->
  first_day_of_week config strptime (InDatetime other) w
  = (Ok (combine (date_of monday_of) (time_of other)), w).
Proof. apply first_day_of_same_week. Qed.

(** A name that is not a key of [WEEK_DAYS] (the seven lower-case
    three-letter names) makes [date_of_weekday] raise [KeyError] with
    that name. *)
Theorem date_of_weekday_unknown date_input week_day (w : world PState) start :
  normalize date_input None w = (Ok start, w) ->
  valid_date (date_of start) ->
  week_day ∉ ["mon"; "tue"; "wed"; "thu"; "fri"; "sat"; "sun"] ->
  date_of_weekday config strptime date_input week_day w
  = (Raise (OtherError "KeyError" week_day), w).
Proof.
  intros Hnorm Hvalid Hkey.
  destruct (first_day_of_week_ok _ _ _ Hnorm Hvalid)
    as (m & Hrun & _).
  unfold date_of_weekday, bind. rewrite Hrun.
  assert (WEEK_DAYS !! week_day = None) as ->; [|reflexivity].
  apply not_elem_of_list_to_map. exact Hkey.
Qed.

(** For a key of [WEEK_DAYS], [date_of_weekday] gives the day of the
    input's week with that weekday number: it lies from the week's
    Monday to its Sunday and has the Monday as its first day of the
    week. Only a day beyond 9999-12-31 is refused. *)
Theorem date_of_weekday_known date_input week_day k (w : world PState) start :
  normalize date_input None w = (Ok start, w) ->
  valid_date (date_of start) ->
  WEEK_DAYS !! week_day = Some k ->
  toordinal (date_of start) - weekday start + k <= _MAXORDINAL ->
  exists r,
    date_of_weekday config strptime date_input week_day w = (Ok r, w)
    /\ weekday r = k
    /\ toordinal (date_of r) = toordinal (date_of start) - weekday start + k
    /\ time_of r = time_of start
    /\ fst (first_day_of_week config strptime (InDatetime r) w)
       = fst (first_day_of_week config strptime date_input w).
Proof.
  intros Hnorm Hvalid Hkey Hroom.
  destruct (first_day_of_week_ok _ _ _ Hnorm Hvalid)
    as (m & Hrun & Hmon & Hord & _ & Htime & [Hlo Hhi]).
  pose proof (WEEK_DAYS_range _ _ Hkey) as Hk.
  unfold date_of_weekday, bind. rewrite Hrun, Hkey. unfold lift.
  destruct (add_days m k) as [r|e] eqn:Hadd.
  - apply add_days_ok in Hadd as [-> Hrange]. eexists.
    split; [reflexivity|].
    split; [|split; [simpl; lia|split; [exact Htime|]]].
    + unfold weekday, date_weekday in *. simpl.
      Z.div_mod_to_equations. lia.
    + rewrite (first_day_of_same_week _ _ _ m _ Hnorm Hvalid Hrun)
        by (simpl; lia).
      simpl. f_equal. apply datetime_eta; reflexivity.
  - apply add_days_raise in Hadd as [Hout _]. lia.
Qed.

(** ["mon"] and ["sun"] name the two ends of the week:
    [date_of_weekday] with them is [first_day_of_week] and
    [last_day_of_week], failure on the last days of the calendar
    included. *)
Theorem date_of_weekday_ends date_input (w : world PState) start :
  normalize date_input None w = (Ok start, w) ->
  valid_date (date_of start) ->
  date_of_weekday config strptime date_input "mon" w
  = first_day_of_week config strptime date_input w
  /\ date_of_weekday config strptime date_input "sun" w
     = last_day_of_week config strptime date_input w.
Proof.
  intros Hnorm Hvalid.
  destruct (first_day_of_week_ok _ _ _ Hnorm Hvalid)
    as (m & Hrun & _ & Hord & _ & Htime & [Hlo Hhi]).
  rewrite (last_day_of_week_run _ _ _ Hnorm).
  unfold date_of_weekday, bind. rewrite Hrun.
  change (WEEK_DAYS !! "mon") with (Some 0).
  change (WEEK_DAYS !! "sun") with (Some 6).
  unfold lift, add_days. rewrite Hord, Htime.
  replace (toordinal (date_of start) - weekday start + 0)
    with (toordinal (date_of m)) by lia.
  replace (toordinal (date_of start) - weekday start + 6)
    with (toordinal (date_of start) + (6 - weekday start)) by lia.
  split; [|reflexivity].
  destruct (0 <? toordinal (date_of m)) eqn:E1; [|lia].
  destruct (toordinal (date_of m) <=? _MAXORDINAL) eqn:E2; [|lia].
  simpl. do 2 f_equal. apply datetime_eta; [apply date_eta|simpl; congruence].
Qed.

End MoreProperties.

(** ** The calendar

    The Gregorian calendar repeats every 400 years, which are 146097
    days. What [_ord2ymd] does is checked on the ordinals of the first
    400 years and carried over to every other ordinal. *)

Lemma is_leap_shift y k : _is_leap (y + 400 * k) = _is_leap y.
Proof.
  unfold _is_leap.
  replace ((y + 400 * k) mod 4) with (y mod 4)
    by (Z.div_mod_to_equations; lia).
  replace ((y + 400 * k) mod 100) with (y mod 100)
    by (Z.div_mod_to_equations; lia).
  replace ((y + 400 * k) mod 400) with (y mod 400)
    by (Z.div_mod_to_equations; lia).
  reflexivity.
Qed.

Lemma days_before_year_shift y k :
  _days_before_year (y + 400 * k) = _days_before_year y + 146097 * k.
Proof. unfold _days_before_year. cbv zeta. Z.div_mod_to_equations. lia. Qed.

Lemma days_in_month_shift y m k :
  _days_in_month (y + 400 * k) m = _days_in_month y m.
Proof. unfold _days_in_month. rewrite is_leap_shift. reflexivity. Qed.

Lemma ymd2ord_shift y m d k :
  _ymd2ord (y + 400 * k) m d = _ymd2ord y m d + 146097 * k.
Proof.
  unfold _ymd2ord, _days_before_month.
  rewrite days_before_year_shift, is_leap_shift. lia.
Qed.

Lemma ord2ymd_shift n k :
  _ord2ymd (n + 146097 * k) = shift_year k (_ord2ymd n).
Proof.
  unfold _ord2ymd. cbv zeta.
  change _DI400Y with 146097.
  replace (n + 146097 * k - 1) with (n - 1 + k * 146097) by lia.
  rewrite Z.div_add, Z.mod_add by lia.
  repeat match goal with
         | |- context [if ?b then _ else _] => destruct b
         end; unfold shift_year; rewrite !pair_equal_spec;
    repeat split; try reflexivity; lia.
Qed.

Lemma days_ok_all fuel : forall n,
  days_ok n (_ord2ymd n) fuel = true ->
  forall i, (i < fuel)%nat -> ord_ok (n + Z.of_nat i) = true.
Proof.
  induction fuel as [|fuel IH]; intros n H i Hi; [lia|].
  simpl in H. apply andb_true_iff in H as [Hday Hrest].
  destruct i as [|i].
  - simpl. rewrite Z.add_0_r. exact Hday.
  - replace (n + Z.of_nat (S i)) with (n + 1 + Z.of_nat i) by lia.
    apply IH; [exact Hrest | lia].
Qed.

Lemma cycle_checked : days_ok 1 (_ord2ymd 1) (Z.to_nat 146097) = true.
Proof. vm_cast_no_check (@eq_refl bool true). Qed.

Lemma ord_ok_cycle n : 1 <= n <= 146097 -> ord_ok n = true.
Proof.
  intros H. replace n with (1 + Z.of_nat (Z.to_nat (n - 1))) by lia.
  apply (days_ok_all _ _ cycle_checked). lia.
Qed.

Lemma next_ymd_shift k ymd :
  next_ymd (shift_year k ymd) = shift_year k (next_ymd ymd).
Proof.
  destruct ymd as [[y m] d]. unfold next_ymd, shift_year.
  rewrite days_in_month_shift.
  destruct (d <? _); [reflexivity|].
  destruct (m <? 12); [reflexivity|]. f_equal. f_equal. lia.
Qed.

Lemma ymd_eqb_shift k a b :
  ymd_eqb (shift_year k a) (shift_year k b) = ymd_eqb a b.
Proof.
  destruct a as [[y1 m1] d1], b as [[y2 m2] d2]. unfold ymd_eqb, shift_year.
  f_equal. f_equal.
  destruct (Z.eqb_spec (y1 + 400 * k) (y2 + 400 * k)),
    (Z.eqb_spec y1 y2); try reflexivity; lia.
Qed.

Lemma ord_ok_shift n k : ord_ok (n + 146097 * k) = ord_ok n.
Proof.
  unfold ord_ok.
  replace (n + 146097 * k + 1) with (n + 1 + 146097 * k) by lia.
  rewrite !ord2ymd_shift.
  destruct (_ord2ymd n) as [[y m] d] eqn:Hn.
  unfold day_ok. rewrite next_ymd_shift, ymd_eqb_shift.
  unfold shift_year at 1.
  rewrite days_in_month_shift, ymd2ord_shift.
  do 2 f_equal.
  destruct (Z.eqb_spec (_ymd2ord y m d + 146097 * k) (n + 146097 * k)),
    (Z.eqb_spec (_ymd2ord y m d) n); try reflexivity; lia.
Qed.

Lemma ord_ok_all n : ord_ok n = true.
Proof.
  replace n with ((n - 1) mod 146097 + 1 + 146097 * ((n - 1) / 146097))
    by (Z.div_mod_to_equations; lia).
  rewrite ord_ok_shift. apply ord_ok_cycle.
  pose proof (Z.mod_pos_bound (n - 1) 146097 ltac:(lia)). lia.
Qed.

Lemma ymd_eqb_eq a b : ymd_eqb a b = true -> a = b.
Proof.
  destruct a as [[y1 m1] d1], b as [[y2 m2] d2]. unfold ymd_eqb.
  rewrite !andb_true_iff, !Z.eqb_eq. intros [[-> ->] ->]. reflexivity.
Qed.

(** [_ord2ymd] on every ordinal: fields in range, [_ymd2ord] its
    inverse, and the next ordinal the next day. *)
Lemma ord2ymd_spec n y m d :
  _ord2ymd n = (y, m, d) ->
  1 <= m <= 12 /\ 1 <= d <= _days_in_month y m
  /\ _ymd2ord y m d = n
  /\ _ord2ymd (n + 1) = next_ymd (y, m, d).
Proof.
  intros Hn. pose proof (ord_ok_all n) as H. unfold ord_ok in H.
  rewrite Hn in H. unfold day_ok in H.
  rewrite !andb_true_iff, !Z.leb_le, Z.eqb_eq in H.
  destruct H as [[[[[? ?] ?] ?] ?] Hnext].
  apply ymd_eqb_eq in Hnext. repeat split; assumption.
Qed.

Lemma ymd2ord_day y m d d' : _ymd2ord y m d' = _ymd2ord y m d + (d' - d).
Proof. unfold _ymd2ord. lia. Qed.

Lemma ord2ymd_forward n y m d j :
  _ord2ymd n = (y, m, d) ->
  0 <= j -> d + j <= _days_in_month y m ->
  _ord2ymd (n + j) = (y, m, d + j).
Proof.
  intros Hn Hj. replace j with (Z.of_nat (Z.to_nat j)) by lia.
  induction (Z.to_nat j) as [|i IH]; intros Hdim.
  - simpl. rewrite !Z.add_0_r. exact Hn.
  - specialize (IH ltac:(lia)).
    apply ord2ymd_spec in IH as (_ & _ & _ & Hnext).
    replace (n + Z.of_nat (S i)) with (n + Z.of_nat i + 1) by lia.
    rewrite Hnext. unfold next_ymd.
    destruct (d + Z.of_nat i <? _days_in_month y m) eqn:E; [|lia].
    f_equal. lia.
Qed.

Lemma ord2ymd_pred n y m d :
  _ord2ymd n = (y, m, d) -> 1 < d ->
  _ord2ymd (n - 1) = (y, m, d - 1).
Proof.
  intros Hn Hd.
  destruct (_ord2ymd (n - 1)) as [[y' m'] d'] eqn:Hp.
  apply ord2ymd_spec in Hp as (_ & _ & _ & Hnext).
  replace (n - 1 + 1) with n in Hnext by lia. rewrite Hn in Hnext.
  unfold next_ymd in Hnext.
  destruct (d' <? _days_in_month y' m').
  - injection Hnext as -> -> ->. f_equal. lia.
  - destruct (m' <? 12); injection Hnext as _ _ ->; lia.
Qed.

Lemma ord2ymd_backward n y m d j :
  _ord2ymd n = (y, m, d) ->
  0 <= j < d ->
  _ord2ymd (n - j) = (y, m, d - j).
Proof.
  intros Hn [Hj Hd]. revert Hd. replace j with (Z.of_nat (Z.to_nat j)) by lia.
  induction (Z.to_nat j) as [|i IH]; intros Hd.
  - simpl. rewrite !Z.sub_0_r. exact Hn.
  - specialize (IH ltac:(lia)).
    apply ord2ymd_pred in IH; [|lia].
    replace (n - Z.of_nat (S i)) with (n - Z.of_nat i - 1) by lia.
    rewrite IH. f_equal. lia.
Qed.

(** ** Months and days of the year *)

Lemma days_in_month_cases y m :
  1 <= m <= 12 ->
  _days_in_month y m
  = table mdays m + (if (m =? 2) && isleap y then 1 else 0)
  /\ 28 <= _days_in_month y m <= 31
  /\ _days_before_month y m + _days_in_month y m
     <= 365 + (if _is_leap y then 1 else 0)
  /\ 0 <= _days_before_month y m.
Proof.
  intros Hm. unfold _days_in_month, _days_before_month.
  change (isleap y) with (_is_leap y).
  assert (m = 1 \/ m = 2 \/ m = 3 \/ m = 4 \/ m = 5 \/ m = 6 \/ m = 7
          \/ m = 8 \/ m = 9 \/ m = 10 \/ m = 11 \/ m = 12) as Hcases by lia.
  destruct (_is_leap y);
    repeat (destruct Hcases as [->|Hcases]; [vm_compute; intuition congruence|]);
    subst m; vm_compute; intuition congruence.
Qed.

Lemma fields_of dt y m d :
  _ord2ymd (toordinal (date_of dt)) = (y, m, d) ->
  year dt = y /\ month dt = m /\ day dt = d.
Proof.
  intros H. unfold year, month, day, date_year, date_month, date_day.
  rewrite H. auto.
Qed.

Lemma valid_year n y m d :
  1 <= n <= _MAXORDINAL -> _ord2ymd n = (y, m, d) ->
  MINYEAR <= y <= MAXYEAR.
Proof.
  intros Hn Hymd. apply ord2ymd_spec in Hymd as (Hm & Hd & Hord & _).
  pose proof (days_in_month_cases y m Hm) as (_ & _ & Hsum & Hpos).
  unfold _ymd2ord, _days_before_year, MINYEAR, MAXYEAR, _MAXORDINAL in *.
  cbv zeta in Hord.
  assert (_days_before_month y m + d <= 366)
    by (destruct (_is_leap y); lia).
  Z.div_mod_to_equations. lia.
Qed.

Lemma days_before_year_succ y :
  _days_before_year (y + 1)
  = _days_before_year y + 365 + (if _is_leap y then 1 else 0).
Proof.
  unfold _days_before_year, _is_leap. cbv zeta.
  replace (y + 1 - 1) with y by lia.
  destruct (Z.eqb_spec (y mod 4) 0), (Z.eqb_spec (y mod 100) 0),
    (Z.eqb_spec (y mod 400) 0); simpl; Z.div_mod_to_equations; lia.
Qed.

(** The month of a valid date lies within the calendar. *)
Lemma month_within_calendar n y m d :
  1 <= n <= _MAXORDINAL -> _ord2ymd n = (y, m, d) ->
  1 <= n - (d - 1) /\ n + (_days_in_month y m - d) <= _MAXORDINAL.
Proof.
  intros Hn Hymd. pose proof (valid_year _ _ _ _ Hn Hymd) as Hy.
  apply ord2ymd_spec in Hymd as (Hm & Hd & Hord & _).
  pose proof (days_in_month_cases y m Hm) as (_ & _ & Hsum & Hpos).
  pose proof (days_before_year_succ y) as Hsucc.
  unfold _ymd2ord in Hord.
  assert (0 <= _days_before_year y
          /\ _days_before_year (y + 1) <= _MAXORDINAL) as [H0 H1].
  { unfold _days_before_year, MINYEAR, MAXYEAR, _MAXORDINAL in *.
    cbv zeta. replace (y + 1 - 1) with y by lia.
    Z.div_mod_to_equations. lia. }
  destruct (_is_leap y); lia.
Qed.

Section MonthProperties.

Context {PState : Type} {HP : HolidayProvider PState}.
Variable config : DateConfig.
Variable strptime : string -> string -> option datetime.

Local Abbreviation normalize := (normalize (PState:=PState) config strptime).

Lemma replace_day dt y m d new_day :
  valid_date (date_of dt) ->
  _ord2ymd (toordinal (date_of dt)) = (y, m, d) ->
  1 <= new_day <= _days_in_month y m ->
  exists r,
    replace dt None (Some new_day) = Ok r
    /\ _ord2ymd (toordinal (date_of r)) = (y, m, new_day)
    /\ toordinal (date_of r) = toordinal (date_of dt) + (new_day - d)
    /\ time_of r = time_of dt.
Proof.
  intros Hvalid Hymd Hnew.
  pose proof (valid_year _ _ _ _ Hvalid Hymd) as Hy.
  destruct (fields_of _ _ _ _ Hymd) as (Hyear & Hmonth & Hday).
  pose proof (ord2ymd_spec _ _ _ _ Hymd) as (Hm & Hd & Hord & _).
  unfold replace. rewrite Hyear, Hmonth. simpl default.
  destruct (_ <=? _) eqn:E1; [|lia]. destruct (y <=? _) eqn:E2; [|lia].
  destruct (1 <=? m) eqn:E3; [|lia]. destruct (m <=? 12) eqn:E4; [|lia].
  destruct (1 <=? new_day) eqn:E5; [|lia].
  destruct (new_day <=? _) eqn:E6; [|lia]. simpl.
  eexists. split; [reflexivity|]. simpl.
  rewrite (ymd2ord_day y m d new_day), Hord.
  split; [|split; reflexivity].
  destruct (Z_le_gt_dec d new_day).
  - replace (d + (new_day - d)) with new_day at 2
      by lia.
    replace (y, m, new_day) with (y, m, d + (new_day - d))
      by (f_equal; lia).
    apply ord2ymd_forward; [assumption|lia|lia].
  - replace (toordinal (date_of dt) + (new_day - d))
      with (toordinal (date_of dt) - (d - new_day)) by lia.
    replace (y, m, new_day) with (y, m, d - (d - new_day))
      by (f_equal; lia).
    apply ord2ymd_backward; [assumption|lia].
Qed.

Lemma fist_day_of_month_ok date_input (w : world PState) start :
  normalize date_input None w = (Ok start, w) ->
  valid_date (date_of start) ->
  exists r,
    fist_day_of_month config strptime date_input w = (Ok r, w)
    /\ year r = year start /\ month r = month start /\ day r = 1
    /\ toordinal (date_of r) = toordinal (date_of start) - (day start - 1)
    /\ time_of r = time_of start.
Proof.
  intros Hnorm Hvalid.
  destruct (_ord2ymd (toordinal (date_of start))) as [[y m] d] eqn:Hymd.
  destruct (fields_of _ _ _ _ Hymd) as (Hyear & Hmonth & Hday).
  pose proof (ord2ymd_spec _ _ _ _ Hymd) as (Hm & Hd & _).
  destruct (replace_day start y m d 1 Hvalid Hymd ltac:(lia))
    as (r & Hrep & Hfields & Hord & Htime).
  destruct (fields_of _ _ _ _ Hfields) as (Hyear' & Hmonth' & Hday').
  exists r. unfold fist_day_of_month, bind, lift. rewrite Hnorm, Hrep.
  repeat split; try congruence. lia.
Qed.

(** [fist_day_of_month] never fails on a valid date: it returns the
    first of the input's month, same year and month, [day - 1] days
    before the input, with the input's time of day. *)
Theorem fist_day_of_month_first date_input (w : world PState) start :
  normalize date_input None w = (Ok start, w) ->
  valid_date (date_of start) ->
  exists r,
    fist_day_of_month config strptime date_input w = (Ok r, w)
    /\ year r = year start /\ month r = month start /\ day r = 1
    /\ toordinal (date_of r) = toordinal (date_of start) - (day start - 1)
    /\ time_of r = time_of start.
Proof. apply fist_day_of_month_ok. Qed.

Lemma last_day_of_month_ok date_input (w : world PState) start :
  normalize date_input None w = (Ok start, w) ->
  valid_date (date_of start) ->
  exists r,
    last_day_of_month config strptime date_input w = (Ok r, w)
    /\ year r = year start /\ month r = month start
    /\ day r = _days_in_month (year start) (month start)
    /\ toordinal (date_of r)
       = toordinal (date_of start) + (day r - day start)
    /\ day start <= day r
    /\ time_of r = time_of start
    /\ (forall next, add_days r 1 = Ok next -> day next = 1).
Proof.
  intros Hnorm Hvalid.
  destruct (_ord2ymd (toordinal (date_of start))) as [[y m] d] eqn:Hymd.
  destruct (fields_of _ _ _ _ Hymd) as (Hyear & Hmonth & Hday).
  pose proof (ord2ymd_spec _ _ _ _ Hymd) as (Hm & Hd & _).
  pose proof (days_in_month_cases y m Hm) as (Hdim & Hbounds & _).
  destruct (replace_day start y m d (_days_in_month y m) Hvalid Hymd
              ltac:(lia))
    as (r & Hrep & Hfields & Hord & Htime).
  destruct (fields_of _ _ _ _ Hfields) as (Hyear' & Hmonth' & Hday').
  exists r. unfold last_day_of_month, bind, lift, monthrange.
  rewrite Hnorm, Hyear, Hmonth.
  destruct (1 <=? m) eqn:E3; [|lia]. destruct (m <=? 12) eqn:E4; [|lia].
  simpl. rewrite <- Hdim, Hrep.
  repeat split; try congruence; try lia.
  intros next Hnext. apply add_days_ok in Hnext as [-> _].
  unfold day, date_day. simpl.
  apply ord2ymd_spec in Hfields as (_ & _ & _ & Hsucc).
  rewrite Hsucc. unfold next_ymd.
  destruct (_ <? _) eqn:E; [lia|]. destruct (m <? 12); reflexivity.
Qed.

(** [last_day_of_month] never fails on a valid date: it returns the
    last day of the input's month, same year and month, not before the
    input, with the input's time of day; the day after it, when the
    calendar has one, is the first of a month. *)
Theorem last_day_of_month_last date_input (w : world PState) start :
  normalize date_input None w = (Ok start, w) ->
  valid_date (date_of start) ->
  exists r,
    last_day_of_month config strptime date_input w = (Ok r, w)
    /\ year r = year start /\ month r = month start
    /\ day r = _days_in_month (year start) (month start)
    /\ toordinal (date_of r)
       = toordinal (date_of start) + (day r - day start)
    /\ day start <= day r
    /\ time_of r = time_of start
    /\ (forall next, add_days r 1 = Ok next -> day next = 1).
Proof. apply last_day_of_month_ok. Qed.

(** The two ends of a month belong to the same month: the first day of
    the month of the last day is the first day of the month of the
    input, and the other way round. *)
Theorem month_ends_compose date_input (w : world PState) start first last :
  normalize date_input None w = (Ok start, w) ->
  valid_date (date_of start) ->
  fist_day_of_month config strptime date_input w = (Ok first, w) ->
  last_day_of_month config strptime date_input w = (Ok last, w) ->
  fist_day_of_month config strptime (InDatetime last) w = (Ok first, w)
  /\ last_day_of_month config strptime (InDatetime first) w = (Ok last, w).
Proof.
  intros Hnorm Hvalid Hfirst Hlast.
  destruct (fist_day_of_month_ok _ _ _ Hnorm Hvalid)
    as (f & Hf & Hfy & Hfm & Hfd & Hford & Hft).
  destruct (last_day_of_month_ok _ _ _ Hnorm Hvalid)
    as (l & Hl & Hly & Hlm & Hld & Hlord & Hle & Hlt & _).
  rewrite Hf in Hfirst. injection Hfirst as ->.
  rewrite Hl in Hlast. injection Hlast as ->.
  destruct (_ord2ymd (toordinal (date_of start))) as [[y m] d] eqn:Hymd.
  destruct (fields_of _ _ _ _ Hymd) as (Hyear & Hmonth & Hday).
  pose proof (ord2ymd_spec _ _ _ _ Hymd) as (Hm & Hd & _).
  pose proof (days_in_month_cases y m Hm) as (_ & Hbounds & _).
  destruct Hvalid as [Hlo Hhi].
  pose proof (month_within_calendar _ _ _ _ (conj Hlo Hhi) Hymd)
    as [Hfirst Hlast].
  assert (valid_date (date_of first)) as Hvf
    by (unfold valid_date; rewrite Hford, Hday; lia).
  assert (valid_date (date_of last)) as Hvl
    by (unfold valid_date; rewrite Hlord, Hld, Hyear, Hmonth, Hday; lia).
  split.
  - destruct (fist_day_of_month_ok (InDatetime last) w last eq_refl Hvl)
      as (f2 & Hf2 & Hy2 & Hm2 & Hd2 & Hord2 & Ht2).
    rewrite Hf2. do 2 f_equal. apply datetime_eta; [|congruence].
    rewrite <- (date_eta (date_of f2)), <- (date_eta (date_of first)).
    f_equal. lia.
  - destruct (last_day_of_month_ok (InDatetime first) w first eq_refl Hvf)
      as (l2 & Hl2 & Hy2 & Hm2 & Hd2 & Hord2 & _ & Ht2 & _).
    rewrite Hl2. do 2 f_equal. apply datetime_eta; [|congruence].
    rewrite <- (date_eta (date_of l2)), <- (date_eta (date_of last)).
    f_equal. rewrite Hord2, Hlord, Hford, Hd2, Hld, Hfd, Hfy, Hfm. lia.
Qed.

(** [day_of_year] is the position of the date in its year: between 1
    and 365, or 366 in a leap year, and the date's ordinal is the
    number of days before the year plus it. *)
Theorem day_of_year_range date_input (w : world PState) start :
  normalize date_input None w = (Ok start, w) ->
  exists n,
    day_of_year config strptime date_input w = (Ok n, w)
    /\ 1 <= n <= (if _is_leap (year start) then 366 else 365)
    /\ toordinal (date_of start) = _days_before_year (year start) + n.
Proof.
  intros Hnorm.
  destruct (_ord2ymd (toordinal (date_of start))) as [[y m] d] eqn:Hymd.
  destruct (fields_of _ _ _ _ Hymd) as (Hyear & Hmonth & Hday).
  pose proof (ord2ymd_spec _ _ _ _ Hymd) as (Hm & Hd & Hord & _).
  pose proof (days_in_month_cases y m Hm) as (_ & _ & Hsum & Hpos).
  exists (tm_yday start). unfold day_of_year, bind, ret. rewrite Hnorm.
  split; [reflexivity|]. unfold tm_yday. rewrite Hyear, Hmonth, Hday.
  unfold _ymd2ord in Hord. destruct (_is_leap y); lia.
Qed.

End MonthProperties.

(** ** Weeks of the year *)

(** The day of the year counts from the first of January. *)
Lemma tm_yday_spec dt :
  toordinal (date_of dt) = _days_before_year (year dt) + tm_yday dt
  /\ 1 <= tm_yday dt <= 365 + (if _is_leap (year dt) then 1 else 0).
Proof.
  destruct (_ord2ymd (toordinal (date_of dt))) as [[y m] d] eqn:Hymd.
  destruct (fields_of _ _ _ _ Hymd) as (Hyear & Hmonth & Hday).
  pose proof (ord2ymd_spec _ _ _ _ Hymd) as (Hm & Hd & Hord & _).
  pose proof (days_in_month_cases y m Hm) as (_ & _ & Hsum & Hpos).
  unfold tm_yday. rewrite Hyear, Hmonth, Hday.
  unfold _ymd2ord in Hord. destruct (_is_leap y); lia.
Qed.

Lemma tm_yday_next dt next :
  add_days dt 1 = Ok next -> year next = year dt ->
  tm_yday next = tm_yday dt + 1 /\ weekday next = (weekday dt + 1) mod 7.
Proof.
  intros Hnext Hyear. apply add_days_ok in Hnext as [Heq _].
  pose proof (tm_yday_spec dt) as [Hd _].
  pose proof (tm_yday_spec next) as [Hn _].
  rewrite Hyear in Hn. unfold weekday, date_weekday.
  rewrite Heq in *. simpl in *. split; [lia|].
  Z.div_mod_to_equations. lia.
Qed.

(** ISO week 1 starts on the Monday nearest to the first of January. *)
Lemma isoweek1monday_spec y :
  (_isoweek1monday y + 6) mod 7 = 0
  /\ _days_before_year y - 2 <= _isoweek1monday y <= _days_before_year y + 4.
Proof.
  unfold _isoweek1monday, _ymd2ord. cbv zeta.
  change (_days_before_month y 1) with 0.
  rewrite Z.gtb_ltb. generalize (_days_before_year y). intros D.
  destruct (Z.ltb_spec 3 ((D + 0 + 1 + 6) mod 7));
    split; Z.div_mod_to_equations; lia.
Qed.

Lemma days_before_year_steps y k :
  0 <= k -> _days_before_year y + 365 * k <= _days_before_year (y + k).
Proof.
  intros Hk. replace k with (Z.of_nat (Z.to_nat k)) by lia.
  induction (Z.to_nat k) as [|i IH].
  - simpl. rewrite !Z.add_0_r. lia.
  - replace (y + Z.of_nat (S i)) with (y + Z.of_nat i + 1) by lia.
    rewrite days_before_year_succ. destruct (_is_leap _); lia.
Qed.

(** Dates less than a year apart lie in the same or in neighbouring
    years. *)
Lemma years_close a b :
  toordinal (date_of a) <= toordinal (date_of b)
  <= toordinal (date_of a) + 6 ->
  year b = year a \/ year b = year a + 1.
Proof.
  intros H.
  pose proof (tm_yday_spec a) as [Ha Hra].
  pose proof (tm_yday_spec b) as [Hb Hrb].
  destruct (Z_lt_le_dec (year b) (year a)) as [Hlt|Hge].
  - pose proof (days_before_year_steps (year b + 1) (year a - year b - 1)
                  ltac:(lia)) as Hs.
    replace (year b + 1 + (year a - year b - 1)) with (year a) in Hs by lia.
    rewrite days_before_year_succ in Hs. destruct (_is_leap (year b)); lia.
  - destruct (Z_le_gt_dec (year b) (year a + 1)) as [|Hgt]; [lia|].
    pose proof (days_before_year_steps (year a + 1) (year b - year a - 1)
                  ltac:(lia)) as Hs.
    replace (year a + 1 + (year b - year a - 1)) with (year b) in Hs by lia.
    rewrite days_before_year_succ in Hs. destruct (_is_leap (year a)); lia.
Qed.

Lemma isocalendar_today dt :
  _ymd2ord (year dt) (month dt) (day dt) = toordinal (date_of dt).
Proof.
  destruct (_ord2ymd (toordinal (date_of dt))) as [[y m] d] eqn:Hymd.
  destruct (fields_of _ _ _ _ Hymd) as (-> & -> & ->).
  apply ord2ymd_spec in Hymd. tauto.
Qed.

Lemma iso_week_range dt : 1 <= iso_week dt <= 53.
Proof.
  unfold iso_week, isocalendar. cbv zeta. rewrite isocalendar_today.
  pose proof (tm_yday_spec dt) as [Hord Hrange].
  pose proof (isoweek1monday_spec (year dt)) as [Hm0 Hb0].
  pose proof (isoweek1monday_spec (year dt - 1)) as [Hm1 Hb1].
  pose proof (isoweek1monday_spec (year dt + 1)) as [Hm2 Hb2].
  pose proof (days_before_year_succ (year dt)) as Hnext.
  pose proof (days_before_year_succ (year dt - 1)) as Hprev.
  replace (year dt - 1 + 1) with (year dt) in Hprev by lia.
  set (n := toordinal (date_of dt)) in *.
  set (M0 := _isoweek1monday (year dt)) in *.
  set (M1 := _isoweek1monday (year dt - 1)) in *.
  set (M2 := _isoweek1monday (year dt + 1)) in *.
  set (D0 := _days_before_year (year dt)) in *.
  set (D1 := _days_before_year (year dt - 1)) in *.
  set (D2 := _days_before_year (year dt + 1)) in *.
  rewrite !Z.geb_leb.
  destruct (_is_leap (year dt)), (_is_leap (year dt - 1));
    destruct (Z.ltb_spec ((n - M0) / 7) 0); simpl;
    try (split; Z.div_mod_to_equations; lia);
    destruct (Z.leb_spec 52 ((n - M0) / 7));
    destruct (Z.leb_spec M2 n); simpl;
    split; Z.div_mod_to_equations; lia.
Qed.

Ltac iso_cases :=
  rewrite ?Z.geb_leb;
  repeat match goal with
         | |- context [if ?a <? ?b then _ else _] =>
             destruct (Z.ltb_spec a b)
         | |- context [if (?a <=? ?b) && (?c <=? ?d) then _ else _] =>
             destruct (Z.leb_spec a b); destruct (Z.leb_spec c d)
         end;
  cbn [andb fst snd].

Lemma iso_week_same_week_le a b :
  toordinal (date_of a) <= toordinal (date_of b) ->
  toordinal (date_of a) - weekday a = toordinal (date_of b) - weekday b ->
  iso_week a = iso_week b.
Proof.
  intros Hle Hweek.
  pose proof (weekday_range a) as Hwa. pose proof (weekday_range b) as Hwb.
  assert (year b = year a \/ year b = year a + 1) as Hyear
    by (apply years_close; lia).
  unfold iso_week, isocalendar. cbv zeta. rewrite !isocalendar_today.
  pose proof (tm_yday_spec a) as [Ha Hra].
  pose proof (tm_yday_spec b) as [Hb Hrb].
  pose proof (isoweek1monday_spec (year a - 1)) as [Hm1 Hb1].
  pose proof (isoweek1monday_spec (year a)) as [Hm0 Hb0].
  pose proof (isoweek1monday_spec (year a + 1)) as [Hm2 Hb2].
  pose proof (isoweek1monday_spec (year a + 1 + 1)) as [Hm3 Hb3].
  pose proof (days_before_year_succ (year a - 1)) as Hs1.
  replace (year a - 1 + 1) with (year a) in Hs1 by lia.
  pose proof (days_before_year_succ (year a)) as Hs0.
  pose proof (days_before_year_succ (year a + 1)) as Hs2.
  unfold weekday, date_weekday in *.
  destruct Hyear as [Hy|Hy]; rewrite Hy in *.
  - clear Hm3 Hb3 Hs2.
    set (na := toordinal (date_of a)) in *.
    set (nb := toordinal (date_of b)) in *.
    generalize dependent (_isoweek1monday (year a - 1)).
    generalize dependent (_isoweek1monday (year a)).
    generalize dependent (_isoweek1monday (year a + 1)).
    generalize dependent (_days_before_year (year a - 1)).
    generalize dependent (_days_before_year (year a)).
    generalize dependent (_days_before_year (year a + 1)).
    generalize dependent (tm_yday a). generalize dependent (tm_yday b).
    destruct (_is_leap (year a - 1)), (_is_leap (year a)); intros;
      iso_cases; Z.div_mod_to_equations; lia.
  - replace (year a + 1 - 1) with (year a) by lia.
    set (na := toordinal (date_of a)) in *.
    set (nb := toordinal (date_of b)) in *.
    generalize dependent (_isoweek1monday (year a - 1)).
    generalize dependent (_isoweek1monday (year a)).
    generalize dependent (_isoweek1monday (year a + 1)).
    generalize dependent (_isoweek1monday (year a + 1 + 1)).
    generalize dependent (_days_before_year (year a - 1)).
    generalize dependent (_days_before_year (year a)).
    generalize dependent (_days_before_year (year a + 1)).
    generalize dependent (_days_before_year (year a + 1 + 1)).
    generalize dependent (tm_yday a). generalize dependent (tm_yday b).
    destruct (_is_leap (year a - 1)), (_is_leap (year a)),
      (_is_leap (year a + 1)); intros;
      iso_cases; Z.div_mod_to_equations; lia.
Qed.

Lemma iso_week_same_week a b :
  toordinal (date_of a) - weekday a = toordinal (date_of b) - weekday b ->
  iso_week a = iso_week b.
Proof.
  intros Hweek.
  destruct (Z_le_gt_dec (toordinal (date_of a)) (toordinal (date_of b))).
  - apply iso_week_same_week_le; assumption.
  - symmetry. apply iso_week_same_week_le; [lia|congruence].
Qed.

Section WeekOfYear.

Context {PState : Type} {HP : HolidayProvider PState}.
Variable config : DateConfig.
Variable strptime : string -> string -> option datetime.

Local Abbreviation normalize := (normalize (PState:=PState) config strptime).

Lemma week_of_year_us_run date_input (w : world PState) start :
  normalize date_input None w = (Ok start, w) ->
  valid_date (date_of start) ->
  week_of_year config strptime date_input (Some "us") w
  = (Ok ((tm_yday start
          + ((_days_before_year (year start) + 1 + 6) mod 7 + 1) mod 7 - 1)
         / 7 + 1), w).
Proof.
  intros Hnorm Hvalid.
  destruct (_ord2ymd (toordinal (date_of start))) as [[y m] d] eqn:Hymd.
  destruct (fields_of _ _ _ _ Hymd) as (Hyear & Hmonth & Hday).
  pose proof (valid_year _ _ _ _ Hvalid Hymd) as Hy.
  unfold week_of_year, bind, lift, ret. rewrite Hnorm.
  rewrite bool_decide_eq_false_2 by discriminate.
  rewrite bool_decide_eq_true_2 by reflexivity.
  unfold replace. rewrite Hyear. simpl default.
  destruct (MINYEAR <=? y) eqn:E1; [|lia].
  destruct (y <=? MAXYEAR) eqn:E2; [|lia].
  simpl.
  assert (weekday (combine (mkdate y 1 1) (time_of start))
          = (_days_before_year y + 1 + 6) mod 7) as ->; [|reflexivity].
  unfold weekday, date_weekday, mkdate, _ymd2ord. simpl.
  change (_days_before_month y 1) with 0. f_equal. lia.
Qed.

(** The US week number lies between 1 and 54, the first of January is in
    week 1, and from one day to the next within a year the number stays,
    except that it goes up by one on every Sunday. *)
Theorem week_of_year_us date_input (w : world PState) start :
  normalize date_input None w = (Ok start, w) ->
  valid_date (date_of start) ->
  exists week,
    week_of_year config strptime date_input (Some "us") w = (Ok week, w)
    /\ 1 <= week <= 54
    /\ (tm_yday start = 1 -> week = 1)
    /\ forall next,
         add_days start 1 = Ok next -> year next = year start ->
         week_of_year config strptime (InDatetime next) (Some "us") w
         = (Ok (week + (if weekday next =? 6 then 1 else 0)), w).
Proof.
  intros Hnorm Hvalid.
  rewrite (week_of_year_us_run _ _ _ Hnorm Hvalid).
  eexists. split; [reflexivity|].
  pose proof (tm_yday_spec start) as [Hord Hrange].
  assert (tm_yday start <= 366) by (destruct (_is_leap _); lia).
  split; [Z.div_mod_to_equations; lia|].
  split; [intros ->; Z.div_mod_to_equations; lia|].
  intros next Hnext Hyear.
  destruct (tm_yday_next _ _ Hnext Hyear) as [Hyday Hwd].
  assert (valid_date (date_of next)) as Hvn.
  { apply add_days_ok in Hnext as [-> ?]. unfold valid_date. simpl. lia. }
  rewrite (week_of_year_us_run (InDatetime next) w next eq_refl Hvn).
  rewrite Hyear, Hyday. do 2 f_equal.
  unfold weekday, date_weekday in Hwd |- *.
  apply add_days_ok in Hnext as [-> _]. simpl in *.
  rewrite Hord.
  destruct (Z.eqb_spec
              ((_days_before_year (year start) + tm_yday start + 1 + 6)
               mod 7) 6);
    Z.div_mod_to_equations; lia.
Qed.

Lemma week_of_year_default_run date_input standard (w : world PState) start :
  normalize date_input None w = (Ok start, w) ->
  standard <> Some "iso" -> standard <> Some "us" ->
  week_of_year config strptime date_input standard w
  = (Ok ((tm_yday start - 1 + 7 - weekday start) / 7), w).
Proof.
  intros Hnorm Hiso Hus.
  unfold week_of_year, bind, ret. rewrite Hnorm.
  rewrite !bool_decide_eq_false_2 by assumption. reflexivity.
Qed.

(** Every [standard] other than ['iso'] and ['us'], [None] and any
    misspelling included, gives the week number [%W]: between 0 and 53,
    0 exactly for the days before the first Monday of the year, and from
    one day to the next within a year going up by one on every
    Monday. *)
Theorem week_of_year_default date_input standard (w : world PState) start :
  normalize date_input None w = (Ok start, w) ->
  standard <> Some "iso" -> standard <> Some "us" ->
  exists week,
    week_of_year config strptime date_input standard w = (Ok week, w)
    /\ week_of_year config strptime date_input None w = (Ok week, w)
    /\ 0 <= week <= 53
    /\ (week = 0 <-> tm_yday start <= weekday start)
    /\ forall next,
         add_days start 1 = Ok next -> year next = year start ->
         week_of_year config strptime (InDatetime next) standard w
         = (Ok (week + (if weekday next =? 0 then 1 else 0)), w).
Proof.
  intros Hnorm Hiso Hus.
  rewrite (week_of_year_default_run _ _ _ _ Hnorm Hiso Hus).
  rewrite (week_of_year_default_run _ None _ _ Hnorm) by discriminate.
  eexists. split; [reflexivity|]. split; [reflexivity|].
  pose proof (tm_yday_spec start) as [Hord Hrange].
  pose proof (weekday_range start) as Hwd.
  assert (tm_yday start <= 366) by (destruct (_is_leap _); lia).
  split; [Z.div_mod_to_equations; lia|].
  split; [Z.div_mod_to_equations; lia|].
  intros next Hnext Hyear.
  destruct (tm_yday_next _ _ Hnext Hyear) as [Hyday Hwdn].
  rewrite (week_of_year_default_run (InDatetime next) standard w next eq_refl)
    by assumption.
  rewrite Hyday, Hwdn. do 2 f_equal.
  destruct (Z.eqb_spec ((weekday start + 1) mod 7) 0);
    Z.div_mod_to_equations; lia.
Qed.

(** The ISO week number lies between 1 and 53 and is the same for all
    the days of a week from Monday to Sunday, across the turn of the
    year too. *)
Theorem week_of_year_iso date_input (w : world PState) start :
  normalize date_input None w = (Ok start, w) ->
  exists week,
    week_of_year config strptime date_input (Some "iso") w = (Ok week, w)
    /\ 1 <= week <= 53
    /\ forall other,
         toordinal (date_of other) - weekday other
         = toordinal (date_of start) - weekday start ->
         week_of_year config strptime (InDatetime other) (Some "iso") w
         = (Ok week, w).
Proof.
  intros Hnorm. exists (iso_week start).
  assert (forall d dt, normalize d None w = (Ok dt, w) ->
            week_of_year config strptime d (Some "iso") w
            = (Ok (iso_week dt), w)) as Hrun.
  { intros d dt H. unfold week_of_year, bind, ret, iso_week. rewrite H.
    rewrite bool_decide_eq_true_2 by reflexivity. reflexivity. }
  split; [apply Hrun; assumption|].
  split; [apply iso_week_range|].
  intros other Hweek. rewrite (Hrun (InDatetime other) other eq_refl).
  do 2 f_equal. apply iso_week_same_week. assumption.
Qed.

End WeekOfYear.

(** ** The further properties on concrete calls *)

Lemma valid_friday : valid_date (date_of friday).
Proof. split; vm_compute; discriminate. Defined.

Lemma valid_monday : valid_date (date_of monday).
Proof. split; vm_compute; discriminate. Defined.

Lemma friday_step_empty :
  while_days_remaining 1 ∅ friday 1 = Ok next_monday.
Proof. unfold friday. run_while. reflexivity. Defined.

Lemma friday_step_holiday :
  while_days_remaining 1 holiday_monday friday 1 = Ok next_tuesday.
Proof. unfold friday. run_while. reflexivity. Defined.

Lemma weekend_holidays_ignored_witness :
  while_days_remaining 1 (∅ ∪ holiday_saturday) friday 1
  = while_days_remaining 1 ∅ friday 1.
Proof.
  apply weekend_holidays_ignored. intros d Hd.
  apply elem_of_singleton in Hd as ->. vm_compute. discriminate.
Defined.


Lemma holidays_delay_witness :
  toordinal (date_of next_monday) <= toordinal (date_of next_tuesday).
Proof.
  apply (holidays_delay 1 ∅ holiday_monday friday 1 next_monday next_tuesday);
    [lia | lia | | exact friday_step_empty | exact friday_step_holiday].
  intros d Hd. apply elem_of_empty in Hd. contradiction.
Defined.

Lemma friday_plus_one_plain :
  add_working_days (HP:=P0) config0 strptime0 (InDatetime friday) 1 None w0
  = (Ok next_monday, w0).
Proof.
  apply (run_without_country _ _ _ _ friday);
    [lia | reflexivity | exact friday_step_empty].
Defined.

Lemma monday_plus_one_plain :
  add_working_days (HP:=P0) config0 strptime0 (InDatetime next_monday) 1
    None w0
  = (Ok next_tuesday, w0).
Proof.
  apply (run_without_country _ _ _ _ next_monday); [lia | reflexivity |].
  unfold next_monday. run_while. reflexivity.
Defined.

Lemma add_working_days_additive_witness :
  add_working_days (HP:=P0) config0 strptime0 (InDatetime friday) (1 + 1)
    None w0
  = (Ok next_tuesday, w0).
Proof.
  apply (add_working_days_additive (HP:=P0) config0 strptime0
           (InDatetime friday) 1 1 None w0 friday next_monday next_tuesday).
  - reflexivity.
  - left. lia.
  - reflexivity.
  - exact valid_friday.
  - exact friday_plus_one_plain.
  - exact monday_plus_one_plain.
Defined.

Lemma five_working_days_one_week_witness :
  add_working_days (HP:=P0) config0 strptime0 (InDatetime monday) (5 * 1)
    None w0
  = (Ok next_monday, w0).
Proof.
  apply (five_working_days_one_week (HP:=P0) config0 strptime0
           (InDatetime monday) 1 None w0 monday).
  - reflexivity.
  - lia.
  - reflexivity.
  - exact valid_monday.
  - reflexivity.
  - split; vm_compute; discriminate.
Defined.

Lemma normalize_failure_first_witness :
  add_working_days (HP:=mock_provider holiday_monday) config0 strptime0
    (InStr "2024-01-01") 5 (Some "PL") w0
  = (Raise (DateOperationError
              "Could not parse '2024-01-01' with format '%d.%m.%Y'"), w0).
Proof.
  apply (normalize_failure_first (HP:=mock_provider holiday_monday)).
  reflexivity.
Defined.

Lemma resolved_set_is_union_witness :
  exists holidays w',
    _get_holiday_set (HP:=mock_provider holiday_monday) [2024; 2025]
      (Some "PL") w0 = (Ok holidays, w')
    /\ forall d, d ∈ holidays <->
                 exists year, year ∈ [2024; 2025] /\ d ∈ holiday_monday.
Proof.
  apply (resolved_set_is_union (HP:=mock_provider holiday_monday)
           (fun _ _ => holiday_monday) [2024; 2025] "P"%char "L" w0).
  intros year cc []. reflexivity.
Defined.

Lemma valid_wednesday : valid_date (date_of wednesday).
Proof. split; vm_compute; discriminate. Defined.

Lemma first_day_of_week_monday_witness :
  exists monday_of,
    first_day_of_week (PState:=unit) config0 strptime0
      (InDatetime wednesday) w0 = (Ok monday_of, w0)
    /\ weekday monday_of = 0
    /\ toordinal (date_of monday_of)
       = toordinal (date_of wednesday) - weekday wednesday
    /\ toordinal (date_of wednesday) - 6 <= toordinal (date_of monday_of)
       <= toordinal (date_of wednesday)
    /\ time_of monday_of = time_of wednesday
    /\ valid_date (date_of monday_of).
Proof.
  exact (first_day_of_week_monday config0 strptime0 (InDatetime wednesday)
           w0 wednesday eq_refl valid_wednesday).
Defined.

Lemma last_day_of_week_sunday_witness :
  exists sunday_of,
    last_day_of_week (PState:=unit) config0 strptime0
      (InDatetime wednesday) w0 = (Ok sunday_of, w0)
    /\ weekday sunday_of = 6
    /\ toordinal (date_of wednesday) <= toordinal (date_of sunday_of)
       <= toordinal (date_of wednesday) + 6
    /\ time_of sunday_of = time_of wednesday.
Proof.
  apply (proj1 (last_day_of_week_sunday config0 strptime0
                  (InDatetime wednesday) w0 wednesday eq_refl
                  valid_wednesday)).
  vm_compute. discriminate.
Defined.

Lemma first_day_of_week_same_week_witness :
  first_day_of_week (PState:=unit) config0 strptime0 (InDatetime sunday) w0
  = (Ok (combine (date_of monday) (time_of sunday)), w0).
Proof.
  apply (first_day_of_week_same_week config0 strptime0
           (InDatetime wednesday) w0 wednesday monday sunday eq_refl
           valid_wednesday eq_refl).
  split; vm_compute; discriminate.
Defined.

Lemma date_of_weekday_unknown_witness :
  date_of_weekday (PState:=unit) config0 strptime0 (InDatetime wednesday)
    "Mon" w0
  = (Raise (OtherError "KeyError" "Mon"), w0).
Proof.
  apply (date_of_weekday_unknown config0 strptime0 (InDatetime wednesday)
           "Mon" w0 wednesday eq_refl valid_wednesday).
  intros H.
  repeat (apply elem_of_cons in H as [H|H]; [discriminate|]).
  inversion H.
Defined.

Lemma date_of_weekday_known_witness :
  exists r,
    date_of_weekday (PState:=unit) config0 strptime0 (InDatetime wednesday)
      "fri" w0 = (Ok r, w0)
    /\ weekday r = 4
    /\ toordinal (date_of r)
       = toordinal (date_of wednesday) - weekday wednesday + 4
    /\ time_of r = time_of wednesday
    /\ fst (first_day_of_week config0 strptime0 (InDatetime r) w0)
       = fst (first_day_of_week config0 strptime0 (InDatetime wednesday) w0).
Proof.
  apply (date_of_weekday_known config0 strptime0 (InDatetime wednesday)
           "fri" 4 w0 wednesday eq_refl valid_wednesday eq_refl).
  vm_compute. discriminate.
Defined.

Lemma date_of_weekday_ends_witness :
  date_of_weekday (PState:=unit) config0 strptime0 (InDatetime wednesday)
    "mon" w0
  = first_day_of_week config0 strptime0 (InDatetime wednesday) w0
  /\ date_of_weekday (PState:=unit) config0 strptime0 (InDatetime wednesday)
       "sun" w0
     = last_day_of_week config0 strptime0 (InDatetime wednesday) w0.
Proof.
  exact (date_of_weekday_ends config0 strptime0 (InDatetime wednesday) w0
           wednesday eq_refl valid_wednesday).
Defined.

Lemma valid_february_29 : valid_date (date_of february_29).
Proof. split; vm_compute; discriminate. Defined.

Lemma fist_day_of_month_first_witness :
  exists r,
    fist_day_of_month (PState:=unit) config0 strptime0
      (InDatetime february_29) w0 = (Ok r, w0)
    /\ year r = year february_29 /\ month r = month february_29
    /\ day r = 1
    /\ toordinal (date_of r)
       = toordinal (date_of february_29) - (day february_29 - 1)
    /\ time_of r = time_of february_29.
Proof.
  exact (fist_day_of_month_first config0 strptime0 (InDatetime february_29)
           w0 february_29 eq_refl valid_february_29).
Defined.

Lemma last_day_of_month_last_witness :
  exists r,
    last_day_of_month (PState:=unit) config0 strptime0
      (InDatetime monday) w0 = (Ok r, w0)
    /\ year r = year monday /\ month r = month monday
    /\ day r = _days_in_month (year monday) (month monday)
    /\ toordinal (date_of r)
       = toordinal (date_of monday) + (day r - day monday)
    /\ day monday <= day r
    /\ time_of r = time_of monday
    /\ (forall next, add_days r 1 = Ok next -> day next = 1).
Proof.
  exact (last_day_of_month_last config0 strptime0 (InDatetime monday) w0
           monday eq_refl valid_monday).
Defined.

Lemma month_ends_compose_witness :
  fist_day_of_month (PState:=unit) config0 strptime0
    (InDatetime january_31) w0 = (Ok monday, w0)
  /\ last_day_of_month (PState:=unit) config0 strptime0
       (InDatetime monday) w0 = (Ok january_31, w0).
Proof.
  apply (month_ends_compose config0 strptime0 (InDatetime wednesday) w0
           wednesday monday january_31 eq_refl valid_wednesday).
  - vm_compute. reflexivity.
  - vm_compute. reflexivity.
Defined.

Lemma day_of_year_range_witness :
  exists n,
    day_of_year (PState:=unit) config0 strptime0 (InDatetime february_29) w0
    = (Ok n, w0)
    /\ 1 <= n <= (if _is_leap (year february_29) then 366 else 365)
    /\ toordinal (date_of february_29)
       = _days_before_year (year february_29) + n.
Proof.
  exact (day_of_year_range config0 strptime0 (InDatetime february_29) w0
           february_29 eq_refl).
Defined.

Lemma week_of_year_us_witness :
  exists week,
    week_of_year (PState:=unit) config0 strptime0 (InDatetime saturday)
      (Some "us") w0 = (Ok week, w0)
    /\ 1 <= week <= 54
    /\ (tm_yday saturday = 1 -> week = 1)
    /\ forall next,
         add_days saturday 1 = Ok next -> year next = year saturday ->
         week_of_year config0 strptime0 (InDatetime next) (Some "us") w0
         = (Ok (week + (if weekday next =? 6 then 1 else 0)), w0).
Proof.
  apply (week_of_year_us config0 strptime0 (InDatetime saturday) w0
           saturday eq_refl).
  split; vm_compute; discriminate.
Defined.

Lemma week_of_year_default_witness :
  exists week,
    week_of_year (PState:=unit) config0 strptime0 (InDatetime sunday)
      (Some "ISO") w0 = (Ok week, w0)
    /\ week_of_year (PState:=unit) config0 strptime0 (InDatetime sunday)
         None w0 = (Ok week, w0)
    /\ 0 <= week <= 53
    /\ (week = 0 <-> tm_yday sunday <= weekday sunday)
    /\ forall next,
         add_days sunday 1 = Ok next -> year next = year sunday ->
         week_of_year config0 strptime0 (InDatetime next) (Some "ISO") w0
         = (Ok (week + (if weekday next =? 0 then 1 else 0)), w0).
Proof.
  apply (week_of_year_default config0 strptime0 (InDatetime sunday)
           (Some "ISO") w0 sunday eq_refl); discriminate.
Defined.

Lemma week_of_year_iso_witness :
  exists week,
    week_of_year (PState:=unit) config0 strptime0 (InDatetime wednesday)
      (Some "iso") w0 = (Ok week, w0)
    /\ 1 <= week <= 53
    /\ forall other,
         toordinal (date_of other) - weekday other
         = toordinal (date_of wednesday) - weekday wednesday ->
         week_of_year config0 strptime0 (InDatetime other) (Some "iso") w0
         = (Ok week, w0).
Proof.
  exact (week_of_year_iso config0 strptime0 (InDatetime wednesday) w0
           wednesday eq_refl).
Defined.
